(** * The Mattermost bot of botkube: bootstrap and message pipeline

    A shallow embedding of [pkg/mattermost/mattermost.go].  The Go code talks
    to three collaborators that live outside the file: the Mattermost REST
    client, the command executor and the logger.  Every call to one of them
    is an explicit node of a program tree ([prog]); a run of a program
    against a server ([run]) yields the outcome (normal return or Go runtime
    panic), the final server state and the list of calls that were issued,
    in order. *)

From Stdlib Require Import String Ascii ZArith List Bool Lia Sorted.
From stdpp Require Import base option list strings gmap.

Open Scope string_scope.

(** ** Data model (the parts of [mattermost-server/model] the file touches) *)

(** [*model.AppError]; a nil pointer is [None]. *)
Record AppError := mkAppError { ErrId : string; StatusCode : Z }.

(** [*model.Response]: only its [Error] field is read. *)
Record Response := mkResponse { Error : option AppError }.

Definition ok : Response := mkResponse None.
Definition failed (e : AppError) : Response := mkResponse (Some e).

Module Team.
Record t := mk { Id : string; Name : string }.
End Team.

Module User.
Record t := mk { Id : string; Username : string }.
End User.

Module Channel.
Record t := mk {
  Id : string;
  Name : string;
  DisplayName : string;
  Purpose : string;
  Type_ : string;
  TeamId : string
}.
End Channel.

Module Post.
Record t := mk {
  Id : string;
  UserId : string;
  ChannelId : string;
  RootId : string;
  Message : string;
  FileIds : list string
}.
End Post.

Module FileInfo.
Record t := mk { Id : string }.
End FileInfo.

Record FileUploadResponse := mkFileUploadResponse { FileInfos : list FileInfo.t }.

Record UserAutocomplete := mkUserAutocomplete { Users : list User.t }.

Record WebsocketBroadcast := mkBroadcast { ChannelId : string }.

Record WebSocketClient := mkWebSocketClient { Url : string; AuthToken : string }.

(** A Go [interface{}] value as JSON decoding produces it; [VNil] is the nil
    interface.  Only the dynamic type matters to the type assertion. *)
#[local] Unset Elimination Schemes.
Inductive Value :=
| VNil
| VString (s : string)
| VBool (b : bool)
| VNumber (n : Z)
| VArray (l : list Value)
| VObject (l : list (string * Value)).
#[local] Set Elimination Schemes.

Record WebSocketEvent := mkEvent {
  Event : string;
  Data : gmap string Value;
  Broadcast : option WebsocketBroadcast
}.

(** Constants of the model package. *)
Definition CHANNEL_OPEN : string := "O".
Definition WEBSOCKET_EVENT_POSTED : string := "posted".

(** Constants of the file. *)
Definition BotName : string := "botkube".
Definition ChannelPurpose : string := "Botkube alerts".
Definition WebSocketProtocol : string := "ws:".
Definition Logs : string := "logs".

Record Bot := mkBot {
  ServerURL : string;
  Token : string;
  TeamName : string;
  ChannelName : string;
  ClusterName : string;
  AllowKubectl : bool
}.

(** The package-level variables [botUser], [botTeam], [botChannel]: pointers,
    nil until bootstrap assigns them.  The other two are not part of the
    record: [client], which [Start] assigns first of all, is the server the
    program runs against, and [webSocketClient] is never assigned ([Start]
    declares a local of that name). *)
Record Globals := mkGlobals {
  botUser : option User.t;
  botTeam : option Team.t;
  botChannel : option Channel.t
}.

Definition noGlobals : Globals := mkGlobals None None None.

(** The arguments of [execute.NewDefaultExecutor]. *)
Record DefaultExecutor := mkExecutor {
  ExecMessage : string;
  ExecAllowKubectl : bool;
  ExecClusterName : string;
  ExecChannelName : string;
  IsAuthChannel : bool
}.

(** ** Calls to the collaborators *)

Inductive Level := InfoLevel | ErrorLevel | FatalLevel.

Inductive Call :=
| GetOldClientConfig (etag : string)
| GetTeamByName (name etag : string)
| AutocompleteUsersInTeam (teamId username etag : string)
| GetChannelByName (channelName teamId etag : string)
| CreateChannel (c : Channel.t)
| AddChannelMember (channelId userId : string)
| UploadFileAsRequestBody (data : list Byte.byte) (channelId filename : string)
| CreatePost (p : Post.t)
| NewWebSocketClient4 (url authToken : string)
| Listen
| Execute (e : DefaultExecutor)
| Log (lvl : Level) (msg : string) (err : option AppError).

(** What each call hands back.  Pointers are options. *)
Definition Resp (c : Call) : Type :=
  match c with
  | GetOldClientConfig _ => (gmap string string * Response)%type
  | GetTeamByName _ _ => (option Team.t * Response)%type
  | AutocompleteUsersInTeam _ _ _ => (option UserAutocomplete * Response)%type
  | GetChannelByName _ _ _ => (option Channel.t * Response)%type
  | CreateChannel _ => (option Channel.t * Response)%type
  | AddChannelMember _ _ => Response
  | UploadFileAsRequestBody _ _ _ => (option FileUploadResponse * Response)%type
  | CreatePost _ => (option Post.t * Response)%type
  | NewWebSocketClient4 _ _ => (option WebSocketClient * option AppError)%type
  | Listen => unit
  | Execute _ => string
  | Log _ _ _ => unit
  end.

(** Go runtime panics the file can raise. *)
Inductive PanicKind := NilDereference | IndexOutOfRange | TypeAssertion.

(** ** Programs *)

Inductive prog (A : Type) : Type :=
| Ret (a : A)
| Panic (k : PanicKind)
| Vis (c : Call) (k : Resp c → prog A).

Arguments Ret {A} a.
Arguments Panic {A} k.
Arguments Vis {A} c k.

Fixpoint bind {A B} (p : prog A) (f : A → prog B) : prog B :=
  match p with
  | Ret a => f a
  | Panic k => Panic k
  | Vis c k => Vis c (λ r, bind (k r) f)
  end.

Definition call (c : Call) : prog (Resp c) := Vis c Ret.

Declare Scope prog_scope.
Delimit Scope prog_scope with prog.
Bind Scope prog_scope with prog.

Notation "x ← y ; z" := (bind y (λ x : _, z))
  (at level 20, y at level 100, z at level 200, only parsing) : prog_scope.
Notation "' x ← y ; z" := (bind y (λ x : _, z))
  (at level 20, x pattern, y at level 100, z at level 200, only parsing) : prog_scope.

Open Scope prog_scope.

(** Dereferencing a pointer, indexing a slice. *)
Definition deref {A} (p : option A) : prog A :=
  match p with
  | Some a => Ret a
  | None => Panic NilDereference
  end.

Definition index {A} (l : list A) (i : nat) : prog A :=
  match l !! i with
  | Some a => Ret a
  | None => Panic IndexOutOfRange
  end.

(** [v.(string)] without the comma-ok form. *)
Definition assertString (v : option Value) : prog string :=
  match v with
  | Some (VString s) => Ret s
  | _ => Panic TypeAssertion
  end.

Definition logError (msg : string) (e : AppError) : prog unit :=
  call (Log ErrorLevel msg (Some e)).

Definition logInfo (msg : string) : prog unit :=
  call (Log InfoLevel msg None).

(** ** Running a program against a server *)

Inductive Outcome (A : Type) :=
| Returned (a : A)
| Panicked (k : PanicKind).

Arguments Returned {A} a.
Arguments Panicked {A} k.

Section Run.
Context {St : Type}.
Variable h : ∀ c : Call, St → Resp c * St.

Fixpoint run {A} (p : prog A) (s : St) : Outcome A * St * list Call :=
  match p with
  | Ret a => (Returned a, s, [])
  | Panic k => (Panicked k, s, [])
  | Vis c k =>
      let '(r, s1) := h c s in
      let '(o, s2, t) := run (k r) s1 in
      (o, s2, c :: t)
  end.

Definition outcome {A} (p : prog A) (s : St) : Outcome A := (run p s).1.1.
Definition final {A} (p : prog A) (s : St) : St := (run p s).1.2.
Definition trace {A} (p : prog A) (s : St) : list Call := (run p s).2.
End Run.

(** ** The [strings] functions the file uses *)

(** [strings.HasPrefix]: [len(s) >= len(prefix) && s[0:len(prefix)] == prefix]. *)
Definition HasPrefix (s prefix : string) : bool :=
  (String.length prefix <=? String.length s)%nat
  && String.eqb (substring 0 (String.length prefix) s) prefix.

(** [strings.TrimPrefix]: [s[len(prefix):]] when [HasPrefix], else [s]. *)
Definition TrimPrefix (s prefix : string) : string :=
  if HasPrefix s prefix
  then substring (String.length prefix) (String.length s - String.length prefix) s
  else s.

(** [strings.SplitN(s, ":", 2)]: at most two pieces, cut at the first colon. *)
Fixpoint SplitN2 (s : string) : list string :=
  match s with
  | EmptyString => [EmptyString]
  | String a rest =>
      if Ascii.eqb a ":" then [EmptyString; rest]
      else match SplitN2 rest with
           | x :: l => String a x :: l
           | [] => [String a EmptyString]
           end
  end.

(** ** The file's functions *)

(** Channel structure in Mattermost. *)
Definition mmChannel (channelName teamID : string) : Channel.t :=
  {| Channel.Id := EmptyString;
     Channel.Name := channelName;
     Channel.DisplayName := channelName;
     Channel.Purpose := ChannelPurpose;
     Channel.Type_ := CHANNEL_OPEN;
     Channel.TeamId := teamID |}.

(** Check if Mattermost server is reachable. *)
Definition checkServerConnection : prog (option AppError) :=
  '(_, resp) ← call (GetOldClientConfig EmptyString);
  match Error resp with
  | Some e => Ret (Some e)
  | None => Ret None
  end.

(** Check if team exists in Mattermost. *)
Definition getBotTeam (teamName : string) : prog (option Team.t * option AppError) :=
  '(botTeam, resp) ← call (GetTeamByName teamName EmptyString);
  match Error resp with
  | Some e => Ret (botTeam, Some e)
  | None => Ret (botTeam, None)
  end.

(** Check if botkube user exists in Mattermost. *)
Definition getBotUser (teamID : string) : prog (option User.t * option AppError) :=
  '(users, resp) ← call (AutocompleteUsersInTeam teamID BotName EmptyString);
  match Error resp with
  | Some e => Ret (None, Some e)
  | None =>
      us ← deref users;
      u ← index (Users us) 0;
      Ret (Some u, None)
  end.

(** Create channel if not present and add botkube user in channel. *)
Definition getBotChannel (channelName botTeamID botUserID : string)
  : prog (option Channel.t * option AppError) :=
  let addMember (botChannel : option Channel.t) :=
    _ ← logInfo "Channel created successfully in Mattermost";
    c ← deref botChannel;
    _ ← call (AddChannelMember (Channel.Id c) botUserID);
    Ret (botChannel, None) in
  '(botChannel, resp) ← call (GetChannelByName channelName botTeamID EmptyString);
  match Error resp with
  | Some _ =>
      '(botChannel, resp) ← call (CreateChannel (mmChannel channelName botTeamID));
      match Error resp with
      | Some e => Ret (botChannel, Some e)
      | None => addMember botChannel
      end
  | None => addMember botChannel
  end.

(** Send messages to Mattermost. *)
Definition sendMessage (msg postID channelID : string) : prog unit :=
  let post := Post.mk EmptyString EmptyString channelID postID EmptyString [] in
  post ← (if (3990 <=? String.length msg)%nat then
            '(res, resp) ← call (UploadFileAsRequestBody (list_byte_of_string msg) channelID Logs);
            _ ← match Error resp with
                | Some e => logError "Error occured while uploading file. Error: " e
                | None => Ret tt
                end;
            r ← deref res;
            fi ← index (FileInfos r) 0;
            Ret (Post.mk EmptyString EmptyString channelID postID EmptyString [FileInfo.Id fi])
          else
            Ret (Post.mk EmptyString EmptyString channelID postID msg []));
  '(_, resp) ← call (CreatePost post);
  match Error resp with
  | Some e => logError "Failed to send message. Error: " e
  | None => Ret tt
  end.

Section Pipeline.
(** [model.PostFromJson]: the decoder of the model package, nil when it
    cannot produce a post record. *)
Variable PostFromJson : string → option Post.t.

Definition mention : string := "@" ++ BotName ++ " ".

(** Check incomming message and take action.  [event] is a non-nil
    [*model.WebSocketEvent]. *)
Definition handleMessage (g : Globals) (event : WebSocketEvent)
    (allowkubectl : bool) (clusterName channelName : string) : prog unit :=
  if negb (String.eqb (Event event) WEBSOCKET_EVENT_POSTED) then Ret tt else
  payload ← assertString (Data event !! "post");
  post ← deref (PostFromJson payload);
  bu ← deref (botUser g);
  if String.eqb (Post.UserId post) (User.Id bu)
     || negb (HasPrefix (Post.Message post) mention)
  then Ret tt else
  let inMessage := TrimPrefix (Post.Message post) mention in
  bc ← deref (Broadcast event);
  bch ← deref (botChannel g);
  let isAuthChannel :=
    if String.eqb (ChannelId bc) (Channel.Id bch) then true else false in
  outMessage ← call (Execute (mkExecutor inMessage allowkubectl clusterName
                                         channelName isAuthChannel));
  if (String.length outMessage =? 0)%nat then
    logInfo "Invalid request. Dumping the response"
  else
    sendMessage ("`" ++ outMessage ++ "`") (Post.Id post) (ChannelId bc).

(** The goroutine of [Start]: one [handleMessage] per event received, in
    arrival order; [events] is what the event channel delivers. *)
Fixpoint listener (g : Globals) (b : Bot) (events : list WebSocketEvent) : prog unit :=
  match events with
  | [] => Ret tt
  | event :: rest =>
      _ ← handleMessage g event (AllowKubectl b) (ClusterName b) (ChannelName b);
      listener g b rest
  end.
End Pipeline.

(** Start establishes mattermost connection and listens for messages.
    Building the client and setting its token make no call.  A nil
    [webSocketClient] (the connection error is ignored) is dereferenced by
    [Listen].  The result is [botUser], [botTeam] and [botChannel] as
    [Start] leaves them and whether the listening goroutine was launched. *)
Definition Start (b : Bot) (g : Globals) : prog (Globals * bool) :=
  err ← checkServerConnection;
  match err with
  | Some e =>
      _ ← logError "There was a problem pinging the Mattermost server. Error: " e;
      Ret (g, false)
  | None =>
  '(team, err) ← getBotTeam (TeamName b);
  let g := mkGlobals (botUser g) team (botChannel g) in
  match err with
  | Some e =>
      _ ← logError "There was a problem finding Mattermost team. Error: " e;
      Ret (g, false)
  | None =>
  t ← deref (botTeam g);
  '(user, err) ← getBotUser (Team.Id t);
  let g := mkGlobals user (botTeam g) (botChannel g) in
  match err with
  | Some e =>
      _ ← logError "There was a problem creating user in Mattermost. Error: " e;
      Ret (g, false)
  | None =>
  t ← deref (botTeam g);
  u ← deref (botUser g);
  '(channel, err) ← getBotChannel (ChannelName b) (Team.Id t) (User.Id u);
  let g := mkGlobals (botUser g) (botTeam g) channel in
  match err with
  | Some e =>
      _ ← logError "There was a problem creating channel. Error: " e;
      Ret (g, false)
  | None =>
  rest ← index (SplitN2 (ServerURL b)) 1;
  let webSocketURL := WebSocketProtocol ++ rest in
  '(webSocketClient, _) ← call (NewWebSocketClient4 webSocketURL (Token b));
  _ ← deref webSocketClient;
  _ ← call Listen;
  Ret (g, true)
  end end end end.

(** ** Reading a trace *)

Definition executions (t : list Call) : list DefaultExecutor :=
  omap (λ c, match c with Execute e => Some e | _ => None end) t.

Definition uploads (t : list Call) : list (list Byte.byte * string * string) :=
  omap (λ c, match c with
             | UploadFileAsRequestBody d ch f => Some (d, ch, f)
             | _ => None
             end) t.

Definition posts (t : list Call) : list Post.t :=
  omap (λ c, match c with CreatePost p => Some p | _ => None end) t.

Definition createdChannels (t : list Call) : list Channel.t :=
  omap (λ c, match c with CreateChannel ch => Some ch | _ => None end) t.

Definition addedMembers (t : list Call) : list (string * string) :=
  omap (λ c, match c with AddChannelMember ch u => Some (ch, u) | _ => None end) t.

Definition logged (t : list Call) : list (Level * string * option AppError) :=
  omap (λ c, match c with Log l m e => Some (l, m, e) | _ => None end) t.

(** [sendMessage] opens with an upload or with the post creation, so its
    invocations are the calls of these two kinds. *)
Definition isSend (c : Call) : bool :=
  match c with
  | UploadFileAsRequestBody _ _ _ | CreatePost _ => true
  | _ => false
  end.

Definition sends (t : list Call) : list Call := filter (λ c, isSend c = true) t.

(** The post record an event carries, when it carries one: the [post] entry
    of the payload map is there, is a string, and decodes. *)
Definition postOf (PostFromJson : string → option Post.t) (event : WebSocketEvent)
  : option Post.t :=
  match Data event !! "post" with
  | Some (VString payload) => PostFromJson payload
  | _ => None
  end.

(** An event the filter lets through to the Executor, in a session that
    bootstrap has resolved ([botUser] and [botChannel] assigned). *)
Record Accepted (PostFromJson : string → option Post.t) (g : Globals)
    (event : WebSocketEvent) (post : Post.t) (bc : WebsocketBroadcast)
    (bch : Channel.t) : Prop := {
  acc_posted : Event event = WEBSOCKET_EVENT_POSTED;
  acc_post : postOf PostFromJson event = Some post;
  acc_author : ∃ bu, botUser g = Some bu ∧ Post.UserId post ≠ User.Id bu;
  acc_mention : HasPrefix (Post.Message post) mention = true;
  acc_broadcast : Broadcast event = Some bc;
  acc_channel : botChannel g = Some bch
}.

(** ** Pieces of the functions, named for the statements below *)

Definition inlinePost (msg postID channelID : string) : Post.t :=
  Post.mk EmptyString EmptyString channelID postID msg [].

Definition filePost (fileID postID channelID : string) : Post.t :=
  Post.mk EmptyString EmptyString channelID postID EmptyString [fileID].

Definition uploadFailedLog (e : AppError) : Call :=
  Log ErrorLevel "Error occured while uploading file. Error: " (Some e).

Definition postFailedLog (e : AppError) : Call :=
  Log ErrorLevel "Failed to send message. Error: " (Some e).

(** The state and the calls up to the point where the upload's answer is
    dereferenced. *)
Definition afterUpload {St : Type} (h : ∀ c : Call, St → Resp c * St)
    (msg channelID : string) (s : St) : St * list Call :=
  let u := UploadFileAsRequestBody (list_byte_of_string msg) channelID Logs in
  let r := h u s in
  match Error r.1.2 with
  | Some e => ((h (uploadFailedLog e) r.2).2, [u; uploadFailedLog e])
  | None => (r.2, [u])
  end.

(** What [handleMessage] hands to [execute.NewDefaultExecutor]. *)
Definition request (post : Post.t) (bc : WebsocketBroadcast) (bch : Channel.t)
    (allowkubectl : bool) (clusterName channelName : string) : DefaultExecutor :=
  mkExecutor (TrimPrefix (Post.Message post) mention) allowkubectl clusterName
             channelName
             (if String.eqb (ChannelId bc) (Channel.Id bch) then true else false).

(** What [handleMessage] does with the Executor's answer. *)
Definition respond (post : Post.t) (bc : WebsocketBroadcast) (outMessage : string)
  : prog unit :=
  if (String.length outMessage =? 0)%nat then
    logInfo "Invalid request. Dumping the response"
  else
    sendMessage ("`" ++ outMessage ++ "`") (Post.Id post) (ChannelId bc).

(** The kind of panic a malformed payload ends in: the unchecked type
    assertion when the [post] entry is missing or not a string, the nil
    post when the string does not decode. *)
Definition malformedPanic (event : WebSocketEvent) : PanicKind :=
  match Data event !! "post" with
  | Some (VString _) => NilDereference
  | _ => TypeAssertion
  end.

(** ** The calls a program can make

    [only P p]: whatever the server answers, every call [p] issues satisfies
    [P]. *)

Fixpoint only {A} (P : Call → Prop) (p : prog A) : Prop :=
  match p with
  | Ret _ | Panic _ => True
  | Vis c k => P c ∧ ∀ r, only P (k r)
  end.

(** [returns Q p]: whatever the server answers, a value [p] returns
    satisfies [Q]. *)
Fixpoint returns {A} (Q : A → Prop) (p : prog A) : Prop :=
  match p with
  | Ret a => Q a
  | Panic _ => True
  | Vis c k => ∀ r, returns Q (k r)
  end.

(** [always Q acc p]: whatever the server answers, the calls of a run of [p]
    (after the calls [acc] already made) and its outcome satisfy [Q]. *)
Fixpoint always {A} (Q : list Call → Outcome A → Prop) (acc : list Call)
    (p : prog A) : Prop :=
  match p with
  | Ret a => Q acc (Returned a)
  | Panic k => Q acc (Panicked k)
  | Vis c k => ∀ r, always Q (acc ++ [c])%list (k r)
  end.

(** The steps of bootstrap, in the order [Start] writes them; a call that is
    no step of bootstrap has no stage. *)
Definition stage (c : Call) : option nat :=
  match c with
  | GetOldClientConfig _ => Some 0
  | GetTeamByName _ _ => Some 1
  | AutocompleteUsersInTeam _ _ _ => Some 2
  | GetChannelByName _ _ _ => Some 3
  | CreateChannel _ => Some 4
  | AddChannelMember _ _ => Some 5
  | NewWebSocketClient4 _ _ => Some 6
  | Listen => Some 7
  | _ => None
  end.

Definition isLog (c : Call) : bool :=
  match c with Log _ _ _ => true | _ => false end.

(** The error-level lines of a trace. *)
Definition errorLogs (t : list Call) : list (string * option AppError) :=
  omap (λ c, match c with Log ErrorLevel m e => Some (m, e) | _ => None end) t.

Definition webSockets (t : list Call) : list (string * string) :=
  omap (λ c, match c with NewWebSocketClient4 u a => Some (u, a) | _ => None end) t.

(** No colon in a string. *)
Fixpoint colonFree (s : string) : bool :=
  match s with
  | EmptyString => true
  | String a rest => negb (Ascii.eqb a ":") && colonFree rest
  end.

(** The process: [Start], and the goroutine it launches consuming the
    events the channel delivers.  Nothing else runs after [Start] returns,
    so the calls of the goroutine follow those of bootstrap. *)
Definition runBot (PostFromJson : string → option Post.t) (b : Bot)
    (events : list WebSocketEvent) : prog unit :=
  '(g, launched) ← Start b noGlobals;
  if launched : bool then listener PostFromJson g b events else Ret tt.

Definition isExecute (c : Call) : bool :=
  match c with Execute _ => true | _ => false end.

(** ** An in-memory server

    A stand-in for the Mattermost server, the Executor and the logger, used
    to run the functions on concrete inputs. *)
Module MemServer.

Record t := mk {
  reachable : bool;
  uploadsUp : bool;
  teams : list Team.t;
  members : list (string * User.t);
  channels : gmap (string * string) Channel.t;
  channelMembers : list (string * string);
  posted : list Post.t;
  executor : string → string
}.

Definition unreachable : AppError := mkAppError "model.client.connecting.app_error" 0.
Definition notFound : AppError := mkAppError "store.sql.missing.app_error" 404.
Definition exists_ : AppError := mkAppError "store.sql_channel.save_channel.exists.app_error" 400.
Definition tooLarge : AppError := mkAppError "api.file.upload_file.too_large.app_error" 413.

Definition withChannels (s : t) (m : gmap (string * string) Channel.t) : t :=
  mk (reachable s) (uploadsUp s) (teams s) (members s) m (channelMembers s)
     (posted s) (executor s).

Definition withMember (s : t) (ch u : string) : t :=
  mk (reachable s) (uploadsUp s) (teams s) (members s) (channels s)
     ((ch, u) :: channelMembers s) (posted s) (executor s).

Definition withPost (s : t) (p : Post.t) : t :=
  mk (reachable s) (uploadsUp s) (teams s) (members s) (channels s)
     (channelMembers s) (p :: posted s) (executor s).

Definition serve (c : Call) (s : t) : Resp c * t :=
  match c as c0 return Resp c0 * t with
  | GetOldClientConfig _ =>
      (if reachable s then (∅, ok) else (∅, failed unreachable), s)
  | GetTeamByName name _ =>
      (if reachable s then
         match List.find (λ tm, String.eqb (Team.Name tm) name) (teams s) with
         | Some tm => (Some tm, ok)
         | None => (None, failed notFound)
         end
       else (None, failed unreachable), s)
  | AutocompleteUsersInTeam teamId username _ =>
      (if reachable s then
         (Some (mkUserAutocomplete
                  (List.map snd
                     (List.filter (λ m, String.eqb (fst m) teamId
                                        && HasPrefix (User.Username (snd m)) username)
                                  (members s)))), ok)
       else (None, failed unreachable), s)
  | GetChannelByName name teamId _ =>
      (if reachable s then
         match channels s !! (teamId, name) with
         | Some ch => (Some ch, ok)
         | None => (None, failed notFound)
         end
       else (None, failed unreachable), s)
  | CreateChannel ch =>
      if reachable s then
        match channels s !! (Channel.TeamId ch, Channel.Name ch) with
        | Some _ => ((None, failed exists_), s)
        | None =>
            let ch' := Channel.mk ("id-" ++ Channel.Name ch) (Channel.Name ch)
                         (Channel.DisplayName ch) (Channel.Purpose ch)
                         (Channel.Type_ ch) (Channel.TeamId ch) in
            ((Some ch', ok),
             withChannels s (<[(Channel.TeamId ch, Channel.Name ch) := ch']> (channels s)))
        end
      else ((None, failed unreachable), s)
  | AddChannelMember ch u =>
      if reachable s then
        if bool_decide ((ch, u) ∈ channelMembers s) then (failed exists_, s)
        else (ok, withMember s ch u)
      else (failed unreachable, s)
  | UploadFileAsRequestBody _ _ _ =>
      (if uploadsUp s then (Some (mkFileUploadResponse [FileInfo.mk "file-1"]), ok)
       else (None, failed tooLarge), s)
  | CreatePost p =>
      if reachable s then ((Some p, ok), withPost s p)
      else ((None, failed unreachable), s)
  | NewWebSocketClient4 url token => ((Some (mkWebSocketClient url token), None), s)
  | Listen => (tt, s)
  | Execute e => (executor s (ExecMessage e), s)
  | Log _ _ _ => (tt, s)
  end.

End MemServer.

(** ** Concrete inputs *)
Module Fixture.

Fixpoint dump (n : nat) : string :=
  match n with
  | O => EmptyString
  | S n => String "x" (dump n)
  end.

(** The Executor of the fixture: two commands it knows, nothing for the rest. *)
Definition execute (cmd : string) : string :=
  if String.eqb cmd "get pods" then "pod-1 Running"
  else if String.eqb cmd "logs pod-1" then dump 4000
  else EmptyString.

Definition team : Team.t := Team.mk "t1" "ops".
Definition bot : User.t := User.mk "u-bot" "botkube".
Definition alice : User.t := User.mk "u-alice" "alice".
Definition alerts : Channel.t :=
  Channel.mk "c-alerts" "alerts" "alerts" ChannelPurpose CHANNEL_OPEN "t1".

Definition server : MemServer.t :=
  MemServer.mk true true [team] [("t1", alice); ("t1", bot)]
    {[ ("t1", "alerts") := alerts ]} [] [] execute.

(** The same server with the bot account missing from the team. *)
Definition serverNoBot : MemServer.t :=
  MemServer.mk true true [team] [("t1", alice)]
    {[ ("t1", "alerts") := alerts ]} [] [] execute.

(** The same server before the channel exists. *)
Definition serverNoChannel : MemServer.t :=
  MemServer.mk true true [team] [("t1", alice); ("t1", bot)] ∅ [] [] execute.

(** The same server refusing uploads. *)
Definition serverNoUploads : MemServer.t :=
  MemServer.mk true false [team] [("t1", alice); ("t1", bot)]
    {[ ("t1", "alerts") := alerts ]} [] [] execute.

(** The same server behind a broken network. *)
Definition serverDown : MemServer.t :=
  MemServer.mk false true [team] [("t1", alice); ("t1", bot)]
    {[ ("t1", "alerts") := alerts ]} [] [] execute.

Definition config : Bot := mkBot "http://chat.local:8065" "token" "ops" "alerts" "dev" true.

Definition session : Globals := mkGlobals (Some bot) (Some team) (Some alerts).

Definition getPost : Post.t :=
  Post.mk "p1" "u-alice" "c-alerts" EmptyString "@botkube get pods" [].
Definition logsPost : Post.t :=
  Post.mk "p2" "u-alice" "c-other" EmptyString "@botkube logs pod-1" [].
Definition whatPost : Post.t :=
  Post.mk "p3" "u-alice" "c-alerts" EmptyString "@botkube dance" [].

(** The decoder of the fixture knows these payloads and nothing else. *)
Definition payloads : list (string * Post.t) :=
  [ ("p-get",  getPost);
    ("p-logs", logsPost);
    ("p-what", whatPost);
    ("p-self", Post.mk "p4" "u-bot" "c-alerts" EmptyString "@botkube get pods" []);
    ("p-chat", Post.mk "p5" "u-alice" "c-alerts" EmptyString "hello @botkube get pods" []) ].

Definition decode (payload : string) : option Post.t :=
  snd <$> List.find (λ e, String.eqb (fst e) payload) payloads.

Definition posted (payload channel : string) : WebSocketEvent :=
  mkEvent WEBSOCKET_EVENT_POSTED {[ "post" := VString payload ]}
          (Some (mkBroadcast channel)).

Definition typing : WebSocketEvent :=
  mkEvent "typing" ∅ (Some (mkBroadcast "c-alerts")).

(** A [posted] event without the [post] entry, one whose entry is not a
    string, one whose entry does not decode. *)
Definition noPayload : WebSocketEvent :=
  mkEvent WEBSOCKET_EVENT_POSTED ∅ (Some (mkBroadcast "c-alerts")).
Definition numberPayload : WebSocketEvent :=
  mkEvent WEBSOCKET_EVENT_POSTED {[ "post" := VNumber 7 ]} (Some (mkBroadcast "c-alerts")).
Definition garbledPayload : WebSocketEvent := posted "{{{" "c-alerts".

Definition handle (event : WebSocketEvent) : prog unit :=
  handleMessage decode session event true "dev" "alerts".

(** Other configurations: an address without a colon, a secure address, a
    team the server does not have. *)
Definition configNoColon : Bot := mkBot "chat.local" "token" "ops" "alerts" "dev" true.
Definition configSecure : Bot :=
  mkBot "https://chat.example.com" "token" "ops" "alerts" "dev" true.
Definition configWrongTeam : Bot :=
  mkBot "http://chat.local:8065" "token" "sales" "alerts" "dev" true.

(** The server with a failing member search; the server refusing to create
    channels. *)
Definition flaky (c : Call) (s : MemServer.t) : Resp c * MemServer.t :=
  match c as c0 return Resp c0 * MemServer.t with
  | AutocompleteUsersInTeam _ _ _ => ((None, failed MemServer.unreachable), s)
  | c0 => MemServer.serve c0 s
  end.

Definition forbidden : AppError := mkAppError "api.context.permissions.app_error" 403.

Definition readOnly (c : Call) (s : MemServer.t) : Resp c * MemServer.t :=
  match c as c0 return Resp c0 * MemServer.t with
  | CreateChannel _ => ((None, failed forbidden), s)
  | c0 => MemServer.serve c0 s
  end.

(** The server with a failing channel lookup: the channels it has are
    not found. *)
Definition lookupDown (c : Call) (s : MemServer.t) : Resp c * MemServer.t :=
  match c as c0 return Resp c0 * MemServer.t with
  | GetChannelByName _ _ _ => ((None, failed MemServer.unreachable), s)
  | c0 => MemServer.serve c0 s
  end.

(** A command of another user in an event without broadcast target. *)
Definition noBroadcast : WebSocketEvent :=
  mkEvent WEBSOCKET_EVENT_POSTED {[ "post" := VString "p-get" ]} None.

End Fixture.

(** ** Tactics *)

Ltac only_cases :=
  unfold deref, index, assertString, logError, logInfo, call;
  repeat (cbn -[Nat.leb String.length];
          match goal with
          | |- True => exact I
          | |- _ ∧ _ => split
          | |- _ = _ => reflexivity
          | |- _ ≠ _ => discriminate
          | |- ∀ _, _ => intro
          | |- context [match ?x with _ => _ end] => destruct x
          end).

Ltac always_cases :=
  unfold deref, index, assertString, logError, logInfo, call;
  repeat (cbn [always bind negb orb andb fst snd Error botUser botTeam botChannel];
          match goal with
          | |- ∀ _, _ => intro
          | |- context [match ?x with _ => _ end] => destruct x
          end).


Ltac accept :=
  split; [reflexivity | reflexivity
         | exists Fixture.bot; split; [reflexivity | discriminate]
         | reflexivity | reflexivity | reflexivity].

(** ** Facts about programs and runs *)

Section RunFacts.
Context {St : Type} (h : ∀ c : Call, St → Resp c * St).

Lemma run_vis {A} (c : Call) (k : Resp c → prog A) (s : St) :
  run h (Vis c k) s =
  let '(o, s2, t) := run h (k (h c s).1) (h c s).2 in (o, s2, c :: t).
Proof. cbn. destruct (h c s). reflexivity. Qed.

Lemma run_bind {A B} (p : prog A) (f : A → prog B) (s : St) :
  run h (bind p f) s =
  match run h p s with
  | (Returned a, s1, t1) =>
      let '(o, s2, t2) := run h (f a) s1 in (o, s2, (t1 ++ t2)%list)
  | (Panicked k, s1, t1) => (Panicked k, s1, t1)
  end.
Proof.
  revert s. induction p as [a | k | c k IH]; intros s; cbn.
  - destruct (run h (f a) s) as [[o s2] t2]. reflexivity.
  - reflexivity.
  - destruct (h c s) as [r s1]. rewrite IH.
    destruct (run h (k r) s1) as [[[a | pk] s2] t1]; [|reflexivity].
    destruct (run h (f a) s2) as [[o s3] t2]. reflexivity.
Qed.

(** A program that panics drags every continuation down with it. *)
Lemma run_bind_panicked {A B} (p : prog A) (f : A → prog B) (s s1 : St) k t :
  run h p s = (Panicked k, s1, t) → run h (bind p f) s = (Panicked k, s1, t).
Proof. intros E. rewrite run_bind, E. reflexivity. Qed.

Lemma run_bind_returned {A B} (p : prog A) (f : A → prog B) (s s1 : St) a t :
  run h p s = (Returned a, s1, t) →
  run h (bind p f) s =
  let '(o, s2, t2) := run h (f a) s1 in (o, s2, (t ++ t2)%list).
Proof. intros E. rewrite run_bind, E. reflexivity. Qed.

(** The listener goes on to the next event exactly when the handler
    returns. *)
Lemma listener_cons PostFromJson g b event later (s : St) :
  run h (listener PostFromJson g b (event :: later)) s =
  match run h (handleMessage PostFromJson g event (AllowKubectl b) (ClusterName b)
                             (ChannelName b)) s with
  | (Returned _, s1, t1) =>
      let '(o, s2, t2) := run h (listener PostFromJson g b later) s1 in
      (o, s2, (t1 ++ t2)%list)
  | (Panicked k, s1, t1) => (Panicked k, s1, t1)
  end.
Proof. cbn [listener]. apply run_bind. Qed.
End RunFacts.

Lemma only_bind {A B} (P : Call → Prop) (p : prog A) (f : A → prog B) :
  only P p → (∀ a, only P (f a)) → only P (bind p f).
Proof.
  intros Hp Hf. induction p as [a | k | c k IH]; cbn in *; auto.
  destruct Hp as [Hc Hk]. split; auto.
Qed.

Lemma only_trace {St A} (h : ∀ c : Call, St → Resp c * St) (P : Call → Prop)
    (p : prog A) (s : St) :
  only P p → Forall P (trace h p s).
Proof.
  unfold trace. revert s. induction p as [a | k | c k IH]; intros s Hp; cbn.
  - constructor.
  - constructor.
  - destruct Hp as [Hc Hk]. destruct (h c s) as [r s1].
    specialize (IH r s1 (Hk r)). destruct (run h (k r) s1) as [[o s2] t].
    constructor; assumption.
Qed.

(** Two servers that answer alike the calls a program can make run it alike. *)
Lemma run_agree {St A} (h h' : ∀ c : Call, St → Resp c * St) (P : Call → Prop)
    (p : prog A) (s : St) :
  (∀ c s', P c → h' c s' = h c s') → only P p → run h' p s = run h p s.
Proof.
  intros Hagree. revert s. induction p as [a | k | c k IH]; intros s Hp; cbn.
  - reflexivity.
  - reflexivity.
  - destruct Hp as [Hc Hk]. rewrite (Hagree c s Hc).
    destruct (h c s) as [r s1]. now rewrite (IH r s1 (Hk r)).
Qed.

Lemma returns_outcome {St A} (h : ∀ c : Call, St → Resp c * St) (Q : A → Prop)
    (p : prog A) (s : St) (a : A) :
  returns Q p → outcome h p s = Returned a → Q a.
Proof.
  unfold outcome. revert s. induction p as [a' | k | c k IH]; intros s Hp; cbn.
  - intros [= <-]. exact Hp.
  - discriminate.
  - destruct (h c s) as [r s1]. specialize (IH r s1 (Hp r)).
    destruct (run h (k r) s1) as [[o s2] t]. exact IH.
Qed.

Lemma always_run {St A} (h : ∀ c : Call, St → Resp c * St)
    (Q : list Call → Outcome A → Prop) (p : prog A) (acc : list Call) (s : St) :
  always Q acc p → Q (acc ++ trace h p s)%list (outcome h p s).
Proof.
  unfold trace, outcome. revert acc s.
  induction p as [a | k | c k IH]; intros acc s Hp; cbn in *.
  - now rewrite app_nil_r.
  - now rewrite app_nil_r.
  - destruct (h c s) as [r s1]. specialize (IH r _ s1 (Hp r)).
    destruct (run h (k r) s1) as [[o s2] t]. cbn in *.
    now rewrite <- app_assoc in IH.
Qed.

Lemma always_trace {St A} (h : ∀ c : Call, St → Resp c * St)
    (Q : list Call → Outcome A → Prop) (p : prog A) (s : St) :
  always Q [] p → Q (trace h p s) (outcome h p s).
Proof. intros Hp. apply (always_run h Q p [] s Hp). Qed.

Lemma executions_none (t : list Call) :
  Forall (λ c, isExecute c = false) t → executions t = [].
Proof.
  induction 1 as [|c t Hc _ IH]; [reflexivity|].
  unfold executions in *. cbn. rewrite IH. destruct c; try reflexivity; discriminate.
Qed.

(** ** Facts about the string functions *)

Lemma substring_all (s : string) : substring 0 (String.length s) s = s.
Proof. induction s as [|a s IH]; cbn; [reflexivity|]. now rewrite IH. Qed.

Lemma append_cons (a : ascii) (p r : string) :
  String a p ++ r = String a (p ++ r).
Proof. reflexivity. Qed.

Lemma HasPrefix_cons (a c : ascii) (s p : string) :
  HasPrefix (String c s) (String a p) = Ascii.eqb c a && HasPrefix s p.
Proof.
  unfold HasPrefix. cbn [String.length substring String.eqb].
  change (S (String.length p) <=? S (String.length s))%nat
    with (String.length p <=? String.length s)%nat.
  destruct (Ascii.eqb c a), (String.length p <=? String.length s)%nat; reflexivity.
Qed.

(** [TrimPrefix] removes the prefix once, and nothing else. *)
Lemma HasPrefix_TrimPrefix (s p : string) :
  HasPrefix s p = true → s = p ++ TrimPrefix s p.
Proof.
  revert s. induction p as [|a p IH]; intros s H.
  - unfold TrimPrefix. rewrite H. cbn [String.length].
    rewrite Nat.sub_0_r, substring_all. reflexivity.
  - destruct s as [|c s]; [discriminate|].
    rewrite HasPrefix_cons in H. apply andb_prop in H as [Hc Hp].
    apply Ascii.eqb_eq in Hc as ->.
    specialize (IH s Hp). unfold TrimPrefix in IH |- *.
    rewrite Hp in IH. rewrite HasPrefix_cons, Ascii.eqb_refl, Hp.
    cbn. rewrite append_cons. f_equal. exact IH.
Qed.

Lemma HasPrefix_app (p r : string) : HasPrefix (p ++ r) p = true.
Proof.
  induction p as [|a p IH]; [destruct r; reflexivity|].
  now rewrite append_cons, HasPrefix_cons, Ascii.eqb_refl.
Qed.

Lemma append_inj_l (p r1 r2 : string) : p ++ r1 = p ++ r2 → r1 = r2.
Proof.
  induction p as [|a p IH]; [auto|].
  rewrite !append_cons. intros [= E]. auto.
Qed.

Lemma TrimPrefix_app (p r : string) : TrimPrefix (p ++ r) p = r.
Proof.
  apply (append_inj_l p). symmetry. apply HasPrefix_TrimPrefix, HasPrefix_app.
Qed.

Lemma HasPrefix_iff (s p : string) :
  HasPrefix s p = true ↔ ∃ r, s = p ++ r.
Proof.
  split.
  - intros H. eexists. apply HasPrefix_TrimPrefix, H.
  - intros [r ->]. apply HasPrefix_app.
Qed.

(** ** The Responder, step by step *)

Section SendFacts.
Context {St : Type} (h : ∀ c : Call, St → Resp c * St).

(** The tail of [sendMessage]: one post creation, a log line if it fails,
    a normal return either way. *)
Lemma run_createPost (p : Post.t) (s : St) :
  run h ('(_, resp) ← call (CreatePost p);
         match Error resp with
         | Some e => logError "Failed to send message. Error: " e
         | None => Ret tt
         end) s =
  let r := h (CreatePost p) s in
  match Error r.1.2 with
  | Some e => (Returned tt, (h (postFailedLog e) r.2).2, [CreatePost p; postFailedLog e])
  | None => (Returned tt, r.2, [CreatePost p])
  end.
Proof.
  cbn. destruct (h (CreatePost p) s) as [[q [[e|]]] s1]; cbn; [|reflexivity].
  unfold postFailedLog. destruct (h _ s1) as [[] s2]. reflexivity.
Qed.

Lemma sendMessage_inline (msg postID channelID : string) (s : St) :
  (String.length msg < 3990)%nat →
  run h (sendMessage msg postID channelID) s =
  let p := inlinePost msg postID channelID in
  let r := h (CreatePost p) s in
  match Error r.1.2 with
  | Some e => (Returned tt, (h (postFailedLog e) r.2).2, [CreatePost p; postFailedLog e])
  | None => (Returned tt, r.2, [CreatePost p])
  end.
Proof.
  intros Hlen. unfold sendMessage.
  destruct (Nat.leb_spec 3990 (String.length msg)) as [Hge|_]; [lia|].
  apply run_createPost.
Qed.

Lemma sendMessage_file (msg postID channelID : string) (s : St) :
  (3990 ≤ String.length msg)%nat →
  run h (sendMessage msg postID channelID) s =
  let u := UploadFileAsRequestBody (list_byte_of_string msg) channelID Logs in
  let '(s1, t1) := afterUpload h msg channelID s in
  match (h u s).1.1 with
  | None => (Panicked NilDereference, s1, t1)
  | Some res =>
      match FileInfos res with
      | [] => (Panicked IndexOutOfRange, s1, t1)
      | fi :: _ =>
          let '(o, s2, t2) :=
            run h ('(_, resp) ← call (CreatePost (filePost (FileInfo.Id fi) postID channelID));
                   match Error resp with
                   | Some e => logError "Failed to send message. Error: " e
                   | None => Ret tt
                   end) s1 in
          (o, s2, (t1 ++ t2)%list)
      end
  end.
Proof.
  intros Hlen. unfold sendMessage, afterUpload.
  destruct (Nat.leb_spec 3990 (String.length msg)) as [_|Hlt]; [|lia].
  cbn.
  destruct (h (UploadFileAsRequestBody _ channelID Logs) s) as [[res [[e|]]] s1]; cbn.
  - unfold uploadFailedLog. destruct (h (Log _ _ _) s1) as [[] s2]; cbn.
    destruct res as [[[|fi fs]]|]; cbn; try reflexivity.
    destruct (h (CreatePost _) s2) as [[q [[e'|]]] s3]; cbn; [|reflexivity].
    destruct (h (Log _ _ _) s3) as [[] s4]. reflexivity.
  - destruct res as [[[|fi fs]]|]; reflexivity.
Qed.

Lemma sendMessage_inline_trace (msg postID channelID : string) (s : St) :
  (String.length msg < 3990)%nat →
  uploads (trace h (sendMessage msg postID channelID) s) = []
  ∧ posts (trace h (sendMessage msg postID channelID) s)
    = [inlinePost msg postID channelID].
Proof.
  intros Hlt. unfold trace. rewrite sendMessage_inline by exact Hlt. cbv zeta.
  destruct (Error _); split; reflexivity.
Qed.

Lemma sendMessage_file_trace (msg postID channelID : string) (s : St) :
  (3990 ≤ String.length msg)%nat →
  uploads (trace h (sendMessage msg postID channelID) s)
  = [(list_byte_of_string msg, channelID, Logs)]
  ∧ ∀ res fi more,
      (h (UploadFileAsRequestBody (list_byte_of_string msg) channelID Logs) s).1.1
        = Some res →
      FileInfos res = fi :: more →
      posts (trace h (sendMessage msg postID channelID) s)
      = [filePost (FileInfo.Id fi) postID channelID].
Proof.
  intros Hge. unfold trace. rewrite sendMessage_file by exact Hge.
  unfold afterUpload. cbv zeta.
  destruct (h (UploadFileAsRequestBody _ _ _) s) as [[res resp] s2].
  cbn [fst snd].
  destruct (Error resp) as [err|];
    (destruct res as [res|]; [destruct (FileInfos res) as [|fi fs] eqn:Hfi|]);
    try (split; [reflexivity|]; intros res' fi' more [= <-] Hfi'; congruence);
    try (split; [reflexivity|]; intros res' fi' more [=]);
    rewrite run_createPost; cbv zeta;
    (split; [destruct (Error _); reflexivity|]);
    intros res' fi' more [= <-] Hfi'; rewrite Hfi in Hfi';
    injection Hfi' as <- <-; destruct (Error _); reflexivity.
Qed.

(** X19.  A failed post creation is logged and goes no further: one
    attempt, one error line, a normal return. *)
Lemma sendMessage_post_failure_swallowed (msg postID channelID : string) (s : St) :
  (String.length msg < 3990)%nat →
  outcome h (sendMessage msg postID channelID) s = Returned tt
  ∧ posts (trace h (sendMessage msg postID channelID) s)
    = [inlinePost msg postID channelID]
  ∧ ∀ e, Error (h (CreatePost (inlinePost msg postID channelID)) s).1.2 = Some e →
      logged (trace h (sendMessage msg postID channelID) s)
      = [(ErrorLevel, "Failed to send message. Error: ", Some e)].
Proof.
  intros Hlt. unfold outcome, trace. rewrite sendMessage_inline by exact Hlt.
  cbv zeta. destruct (Error _) as [e|]; repeat split; try reflexivity.
  - intros e' [= <-]. reflexivity.
  - intros e' [=].
Qed.

(** An upload that answers with a nil response is logged when it carries
    an error, and dereferenced all the same. *)
Lemma sendMessage_nil_upload_panics (msg postID channelID : string) (s : St) :
  (3990 ≤ String.length msg)%nat →
  (h (UploadFileAsRequestBody (list_byte_of_string msg) channelID Logs) s).1.1 = None →
  outcome h (sendMessage msg postID channelID) s = Panicked NilDereference
  ∧ posts (trace h (sendMessage msg postID channelID) s) = [].
Proof.
  intros Hge Hnil. unfold outcome, trace. rewrite sendMessage_file by exact Hge.
  unfold afterUpload. cbv zeta. rewrite Hnil.
  destruct (Error _); split; reflexivity.
Qed.
End SendFacts.

(** ** The Filter and Dispatcher, step by step *)

Section HandleFacts.
Context {St : Type} (h : ∀ c : Call, St → Resp c * St).
Variable PostFromJson : string → option Post.t.

Lemma handleMessage_accepted g event post bc bch ak cn chn (s : St) :
  Accepted PostFromJson g event post bc bch →
  run h (handleMessage PostFromJson g event ak cn chn) s =
  let e := request post bc bch ak cn chn in
  let '(o, s2, t) := run h (respond post bc (h (Execute e) s).1) (h (Execute e) s).2 in
  (o, s2, Execute e :: t).
Proof.
  intros [Hev Hpost [bu [Hbu Hauth]] Hpre Hbc Hch].
  unfold handleMessage, postOf in *.
  rewrite Hev, String.eqb_refl. cbn [negb].
  destruct (Data event !! "post") as [[]|]; try discriminate.
  cbn [assertString]. cbn -[HasPrefix TrimPrefix mention sendMessage].
  rewrite Hpost, Hbu. cbn -[HasPrefix TrimPrefix mention sendMessage].
  apply String.eqb_neq in Hauth. rewrite Hauth, Hpre, Hbc, Hch.
  cbn -[HasPrefix TrimPrefix mention sendMessage].
  unfold request, respond.
  destruct (h (Execute _) s) as [out s1]. reflexivity.
Qed.

(** Every event is either dropped before any call is made (the handler
    returns, or the Go runtime panics, with an empty trace and the server
    untouched) or accepted. *)
Lemma handleMessage_cases g event ak cn chn (s : St) :
  (∃ o, run h (handleMessage PostFromJson g event ak cn chn) s = (o, s, []))
  ∨ (∃ post bc bch, Accepted PostFromJson g event post bc bch).
Proof.
  unfold handleMessage.
  destruct (String.eqb (Event event) WEBSOCKET_EVENT_POSTED) eqn:Hev;
    cbn [negb]; [|left; eexists; reflexivity].
  apply String.eqb_eq in Hev.
  destruct (Data event !! "post") as [v|] eqn:Hdata;
    [destruct v as [|payload| | | |]|]; try (left; eexists; reflexivity).
  cbn -[HasPrefix TrimPrefix mention sendMessage].
  destruct (PostFromJson payload) as [post|] eqn:Hpost; [|left; eexists; reflexivity].
  cbn -[HasPrefix TrimPrefix mention sendMessage].
  destruct (botUser g) as [bu|] eqn:Hbu; [|left; eexists; reflexivity].
  cbn -[HasPrefix TrimPrefix mention sendMessage].
  destruct (String.eqb (Post.UserId post) (User.Id bu)) eqn:Hauth;
    [left; eexists; reflexivity|].
  destruct (HasPrefix (Post.Message post) mention) eqn:Hpre;
    [|left; eexists; reflexivity].
  cbn -[HasPrefix TrimPrefix mention sendMessage].
  destruct (Broadcast event) as [bc|] eqn:Hbc; [|left; eexists; reflexivity].
  cbn -[HasPrefix TrimPrefix mention sendMessage].
  destruct (botChannel g) as [bch|] eqn:Hch; [|left; eexists; reflexivity].
  right. exists post, bc, bch. split; auto.
  - unfold postOf. now rewrite Hdata.
  - exists bu. split; [exact Hbu|]. now apply String.eqb_neq.
Qed.

Lemma handleMessage_silent g event ak cn chn (s : St) :
  (∀ post bc bch, ¬ Accepted PostFromJson g event post bc bch) →
  ∃ o, run h (handleMessage PostFromJson g event ak cn chn) s = (o, s, []).
Proof.
  intros Hno.
  destruct (handleMessage_cases g event ak cn chn s) as [Hs|(post & bc & bch & Hacc)];
    [exact Hs|].
  destruct (Hno _ _ _ Hacc).
Qed.

(** An accepted event determines its post, broadcast and channel. *)
Lemma Accepted_unique g event post bc bch post' bc' bch' :
  Accepted PostFromJson g event post bc bch →
  Accepted PostFromJson g event post' bc' bch' →
  post = post' ∧ bc = bc' ∧ bch = bch'.
Proof.
  intros [_ Hp _ _ Hb Hc] [_ Hp' _ _ Hb' Hc']. repeat split; congruence.
Qed.

Lemma trace_accepted g event post bc bch ak cn chn (s : St) :
  Accepted PostFromJson g event post bc bch →
  let e := request post bc bch ak cn chn in
  trace h (handleMessage PostFromJson g event ak cn chn) s =
  Execute e :: trace h (respond post bc (h (Execute e) s).1) (h (Execute e) s).2.
Proof.
  intros Hacc e. unfold trace. rewrite (handleMessage_accepted _ _ _ _ _ _ _ _ _ Hacc).
  cbv zeta. fold e. destruct (run h _ _) as [[o s2] t]. reflexivity.
Qed.

(** The reply makes no call to the Executor. *)
Lemma respond_no_execute post bc out :
  only (λ c, isExecute c = false) (respond post bc out).
Proof. unfold respond, sendMessage. only_cases. Qed.

Lemma executions_respond post bc out (s : St) :
  executions (trace h (respond post bc out) s) = [].
Proof. apply executions_none, only_trace, respond_no_execute. Qed.
End HandleFacts.

(** ** The message pipeline *)

Section PipelineClaims.
Context {St : Type} (h : ∀ c : Call, St → Resp c * St).
Variable PostFromJson : string → option Post.t.

Lemma mention_eq : mention = "@botkube ".
Proof. reflexivity. Qed.

Lemma executions_accepted g event post bc bch ak cn chn (s : St) :
  Accepted PostFromJson g event post bc bch →
  executions (trace h (handleMessage PostFromJson g event ak cn chn) s)
  = [request post bc bch ak cn chn].
Proof.
  intros Hacc. rewrite (trace_accepted h PostFromJson _ _ _ _ _ _ _ _ _ Hacc).
  cbv zeta. change (executions (Execute ?e :: ?t)) with (e :: executions t).
  now rewrite executions_respond.
Qed.

(** C4.  [handleMessage] calls the Executor (and hence [sendMessage]) only
    for an event whose type tag is [posted], whose post is authored by
    somebody else than the bot, and whose message text starts with the
    exact bytes of the mention prefix, at sign, bot name, one space.  An
    event failing any of the three conditions causes no Executor call and
    no send; in fact no call at all. *)
Theorem handleMessage_gate g event ak cn chn (s : St) :
  let t := trace h (handleMessage PostFromJson g event ak cn chn) s in
  (executions t ≠ [] ∨ sends t ≠ [] →
     Event event = WEBSOCKET_EVENT_POSTED ∧
     ∃ post bu, postOf PostFromJson event = Some post ∧ botUser g = Some bu ∧
                Post.UserId post ≠ User.Id bu ∧
                HasPrefix (Post.Message post) "@botkube " = true ∧
                ∃ cmd, Post.Message post = "@botkube " ++ cmd)
  ∧ (Event event ≠ WEBSOCKET_EVENT_POSTED → executions t = [] ∧ sends t = [])
  ∧ (∀ post bu, postOf PostFromJson event = Some post → botUser g = Some bu →
       Post.UserId post = User.Id bu → executions t = [] ∧ sends t = [])
  ∧ (∀ post, postOf PostFromJson event = Some post →
       HasPrefix (Post.Message post) "@botkube " = false →
       executions t = [] ∧ sends t = []).
Proof.
  intros t. subst t. rewrite <- mention_eq.
  destruct (handleMessage_cases h PostFromJson g event ak cn chn s)
    as [[o Hrun]|(post & bc & bch & Hacc)].
  - unfold trace. rewrite Hrun. cbn.
    split; [|repeat split].
    intros [Hne|Hne]; destruct Hne; reflexivity.
  - destruct Hacc as [Hev Hpost [bu [Hbu Hauth]] Hpre Hbc Hch].
    split; [|split; [|split]].
    + intros _. split; [exact Hev|]. exists post, bu.
      repeat split; auto. apply HasPrefix_iff, Hpre.
    + intros Hne. destruct (Hne Hev).
    + intros post' bu' Hpost' Hbu' Heq.
      assert (post' = post) as -> by congruence.
      assert (bu' = bu) as -> by congruence.
      destruct (Hauth Heq).
    + intros post' Hpost' Hno.
      assert (post' = post) as -> by congruence. congruence.
Qed.

(** C5.  For an accepted post the command text handed to the Executor is
    the message text with the leading mention prefix removed once; for the
    message [@botkube get pods] it is [get pods]. *)
Theorem command_is_trimmed_message g event post bc bch ak cn chn (s : St) :
  Accepted PostFromJson g event post bc bch →
  ∃ e rest,
    trace h (handleMessage PostFromJson g event ak cn chn) s = Execute e :: rest
    ∧ executions (Execute e :: rest) = [e]
    ∧ Post.Message post = "@botkube " ++ ExecMessage e
    ∧ (Post.Message post = "@botkube get pods" → ExecMessage e = "get pods").
Proof.
  intros Hacc.
  pose proof (executions_accepted _ _ _ _ _ ak cn chn s Hacc) as Hex.
  rewrite (trace_accepted h PostFromJson _ _ _ _ _ _ _ _ _ Hacc) in Hex |- *.
  cbv zeta in *. eexists _, _. split; [reflexivity|]. split; [exact Hex|].
  cbn [request ExecMessage].
  assert (Post.Message post = "@botkube " ++ TrimPrefix (Post.Message post) mention)
    as Hsplit.
  { rewrite <- mention_eq. apply HasPrefix_TrimPrefix, Hacc. }
  split; [exact Hsplit|].
  intros Hmsg. rewrite Hmsg in Hsplit at 1.
  change "@botkube get pods" with ("@botkube " ++ "get pods") in Hsplit.
  apply append_inj_l in Hsplit. now symmetry.
Qed.

(** C6.  For an accepted event the authorization flag handed to the
    Executor is true exactly when the broadcast channel of the event is the
    channel resolved at bootstrap, false for any other channel; the
    Executor is called in both cases, and what follows the call depends on
    the Executor's answer only. *)
Theorem authorization_flag g event post bc bch ak cn chn (s : St) :
  Accepted PostFromJson g event post bc bch →
  ∃ e,
    executions (trace h (handleMessage PostFromJson g event ak cn chn) s) = [e]
    ∧ (IsAuthChannel e = true ↔ ChannelId bc = Channel.Id bch)
    ∧ (IsAuthChannel e = false ↔ ChannelId bc ≠ Channel.Id bch)
    ∧ trace h (handleMessage PostFromJson g event ak cn chn) s
      = Execute e :: trace h (respond post bc (h (Execute e) s).1) (h (Execute e) s).2.
Proof.
  intros Hacc. exists (request post bc bch ak cn chn).
  split; [apply executions_accepted, Hacc|].
  cbn [request IsAuthChannel].
  destruct (String.eqb_spec (ChannelId bc) (Channel.Id bch)) as [Heq|Hne].
  - repeat split; auto; try discriminate; try congruence.
    apply (trace_accepted h PostFromJson _ _ _ _ _ _ _ _ _ Hacc).
  - repeat split; auto; try discriminate; try congruence.
    apply (trace_accepted h PostFromJson _ _ _ _ _ _ _ _ _ Hacc).
Qed.

Lemma length_nonempty (r : string) : r ≠ EmptyString → (String.length r =? 0)%nat = false.
Proof. destruct r; [congruence|reflexivity]. Qed.

(** C9.  When the Executor answers an accepted event with the empty
    string, [handleMessage] logs one line and returns: [sendMessage] is not
    called, no upload and no post is made. *)
Theorem empty_result_dropped g event post bc bch ak cn chn (s : St) :
  Accepted PostFromJson g event post bc bch →
  (h (Execute (request post bc bch ak cn chn)) s).1 = EmptyString →
  let t := trace h (handleMessage PostFromJson g event ak cn chn) s in
  t = [Execute (request post bc bch ak cn chn);
       Log InfoLevel "Invalid request. Dumping the response" None]
  ∧ sends t = [] ∧ uploads t = [] ∧ posts t = []
  ∧ outcome h (handleMessage PostFromJson g event ak cn chn) s = Returned tt.
Proof.
  intros Hacc Hout t. subst t. unfold outcome, trace.
  rewrite (handleMessage_accepted h PostFromJson _ _ _ _ _ _ _ _ _ Hacc).
  cbv zeta. rewrite Hout. unfold respond. cbn.
  destruct (h (Log _ _ _) _) as [[] s2]. cbn. repeat split; reflexivity.
Qed.

(** C7.  A non-empty Executor result [r] is answered with the text
    backquote, [r], backquote, as a reply in the thread of the originating
    post ([RootId]) and in the broadcast channel of the event.  Below 3990
    bytes the text is the body of the one post created and nothing is
    uploaded; from 3990 bytes on the text is uploaded once as the file
    [logs] to that channel, and the one post created carries the
    identifier of the first file the upload returned, that one only, and an
    empty body. *)
Theorem reply_inline_or_file g event post bc bch ak cn chn (s : St) :
  Accepted PostFromJson g event post bc bch →
  let e := request post bc bch ak cn chn in
  let r := (h (Execute e) s).1 in
  let s1 := (h (Execute e) s).2 in
  let w := "`" ++ r ++ "`" in
  let t := trace h (handleMessage PostFromJson g event ak cn chn) s in
  r ≠ EmptyString →
  ((String.length w < 3990)%nat →
     uploads t = [] ∧
     posts t = [Post.mk EmptyString EmptyString (ChannelId bc) (Post.Id post) w []])
  ∧ ((3990 ≤ String.length w)%nat →
     uploads t = [(list_byte_of_string w, ChannelId bc, "logs")] ∧
     ∀ res fi more,
       (h (UploadFileAsRequestBody (list_byte_of_string w) (ChannelId bc) "logs") s1).1.1
         = Some res →
       FileInfos res = fi :: more →
       posts t = [Post.mk EmptyString EmptyString (ChannelId bc) (Post.Id post)
                          EmptyString [FileInfo.Id fi]]).
Proof.
  intros Hacc e r s1 w t Hr. subst t.
  rewrite (trace_accepted h PostFromJson _ _ _ _ _ _ _ _ _ Hacc).
  cbv zeta. fold e. fold r. fold s1. unfold respond.
  rewrite (length_nonempty r Hr). fold w.
  change (uploads (Execute e :: ?t)) with (uploads t).
  change (posts (Execute e :: ?t)) with (posts t).
  split.
  - intros Hlt. apply sendMessage_inline_trace, Hlt.
  - intros Hge. apply sendMessage_file_trace, Hge.
Qed.

(** C3, as the code has it.  A [posted] event whose payload is missing,
    not a string, or not decodable makes [handleMessage] panic before any
    call: no Executor call, no send, no log line, the server untouched.
    The panic is not recovered, so the listener handles no later event. *)
Theorem malformed_payload_panics g b event later ak cn chn (s : St) :
  Event event = WEBSOCKET_EVENT_POSTED →
  postOf PostFromJson event = None →
  run h (handleMessage PostFromJson g event ak cn chn) s
  = (Panicked (malformedPanic event), s, [])
  ∧ run h (listener PostFromJson g b (event :: later)) s
    = (Panicked (malformedPanic event), s, []).
Proof.
  intros Hev Hpost.
  assert (∀ ak cn chn, run h (handleMessage PostFromJson g event ak cn chn) s
                       = (Panicked (malformedPanic event), s, [])) as Hrun.
  { intros ak' cn' chn'. unfold handleMessage, malformedPanic, postOf in *.
    rewrite Hev, String.eqb_refl. cbn [negb].
    destruct (Data event !! "post") as [[|payload| | | |]|]; try reflexivity.
    cbn -[HasPrefix TrimPrefix mention sendMessage]. rewrite Hpost. reflexivity. }
  split; [apply Hrun|].
  cbn [listener]. apply run_bind_panicked, Hrun.
Qed.
End PipelineClaims.

(** ** Bootstrap *)

Section BootstrapClaims.
Context {St : Type} (h : ∀ c : Call, St → Resp c * St).

(** [getBotChannel] by the answer of the lookup.  For a channel the lookup
    finds it issues no create-channel call.  For a lookup that fails it
    issues exactly one, for [mmChannel]: the given name, the purpose
    [ChannelPurpose], the open type, the given team.  In both cases, once
    there is a channel, the bot is added to it and the channel is returned
    with a nil error whatever the membership call answers. *)
Theorem channel_resolution channelName teamID userID (s : St) :
  let lookup := GetChannelByName channelName teamID EmptyString in
  let create := CreateChannel (mmChannel channelName teamID) in
  let t := trace h (getBotChannel channelName teamID userID) s in
  (∀ c, (h lookup s).1 = (Some c, ok) →
     createdChannels t = []
     ∧ addedMembers t = [(Channel.Id c, userID)]
     ∧ outcome h (getBotChannel channelName teamID userID) s
       = Returned (Some c, None))
  ∧ (∀ p e, (h lookup s).1 = (p, failed e) →
     createdChannels t = [mmChannel channelName teamID]
     ∧ Channel.Name (mmChannel channelName teamID) = channelName
     ∧ Channel.Purpose (mmChannel channelName teamID) = "Botkube alerts"
     ∧ Channel.Type_ (mmChannel channelName teamID) = CHANNEL_OPEN
     ∧ Channel.TeamId (mmChannel channelName teamID) = teamID
     ∧ ∀ c, (h create (h lookup s).2).1 = (Some c, ok) →
         addedMembers t = [(Channel.Id c, userID)]
         ∧ outcome h (getBotChannel channelName teamID userID) s
           = Returned (Some c, None)).
Proof.
  intros lookup create t. subst t. unfold outcome, trace, getBotChannel.
  fold lookup. fold create. cbn -[lookup create].
  destruct (h lookup s) as [[found resp] s1]. cbn [fst snd]. split.
  - intros ch [= -> ->]. cbn.
    destruct (h (Log _ _ _) s1) as [[] s2]. cbn.
    destruct (h (AddChannelMember _ _) s2) as [r s3]. cbn.
    repeat split; reflexivity.
  - intros p e [= -> ->]. cbn -[create].
    destruct (h create s1) as [[made resp'] s2]. cbn [fst snd].
    split; [|do 4 (split; [reflexivity|])].
    + destruct (Error resp'); cbn.
      * reflexivity.
      * destruct (h (Log _ _ _) s2) as [[] s3]. cbn.
        destruct made; cbn; [|reflexivity].
        destruct (h (AddChannelMember _ _) s3) as [r s4]. reflexivity.
    + intros ch [= -> ->]. cbn.
      destruct (h (Log _ _ _) s2) as [[] s3]. cbn.
      destruct (h (AddChannelMember _ _) s3) as [r s4]. split; reflexivity.
Qed.

(** C10.  Whatever error the channel lookup answers with, and whatever
    pointer comes with it, [getBotChannel] goes on to the create-channel
    call.  The error is not looked at: a server that differs only in the
    failure its lookup reports is run in exactly the same way. *)
Theorem lookup_failure_creates channelName teamID userID (s : St) p e :
  let lookup := GetChannelByName channelName teamID EmptyString in
  (h lookup s).1 = (p, failed e) →
  (∃ rest, trace h (getBotChannel channelName teamID userID) s
           = lookup :: CreateChannel (mmChannel channelName teamID) :: rest)
  ∧ ∀ (h' : ∀ c : Call, St → Resp c * St) p' e',
      (∀ c s', c ≠ lookup → h' c s' = h c s') →
      h' lookup s = ((p', failed e'), (h lookup s).2) →
      run h' (getBotChannel channelName teamID userID) s
      = run h (getBotChannel channelName teamID userID) s.
Proof.
  intros lookup Hfail. unfold trace, getBotChannel. fold lookup. split.
  - cbn -[lookup]. destruct (h lookup s) as [[found resp] s1].
    cbn [fst] in Hfail. injection Hfail as -> ->. cbn.
    destruct (h (CreateChannel _) s1) as [[made resp'] s2].
    destruct (run h _ s2) as [[o s3] t]. eexists. reflexivity.
  - intros h' p' e' Hagree Hfail'. cbn -[lookup]. rewrite Hfail'.
    destruct (h lookup s) as [[found resp] s1].
    cbn [fst] in Hfail. injection Hfail as -> ->. cbn [snd failed Error].
    rewrite (run_agree h h' (λ c, c ≠ lookup)); [reflexivity|exact Hagree|].
    subst lookup. only_cases.
Qed.

(** A failed member search is handed back as the error. *)
Lemma getBotUser_lookup_error teamID e (s : St) :
  let search := AutocompleteUsersInTeam teamID BotName EmptyString in
  Error (h search s).1.2 = Some e →
  run h (getBotUser teamID) s = (Returned (None, Some e), (h search s).2, [search]).
Proof.
  intros search He. unfold getBotUser. fold search. cbn -[search].
  destruct (h search s) as [[users resp] s1]. cbn in He |- *.
  rewrite He. reflexivity.
Qed.

(** A member search that succeeds and finds nobody is indexed all the same. *)
Lemma getBotUser_empty teamID (s : St) :
  let search := AutocompleteUsersInTeam teamID BotName EmptyString in
  (h search s).1 = (Some (mkUserAutocomplete []), ok) →
  run h (getBotUser teamID) s = (Panicked IndexOutOfRange, (h search s).2, [search]).
Proof.
  intros search He. unfold getBotUser. fold search. cbn -[search].
  destruct (h search s) as [[users resp] s1]. cbn in He |- *.
  injection He as -> ->. reflexivity.
Qed.

(** [Start] launches the listener only with the team, the bot user and the
    channel resolved. *)
Lemma Start_returns_resolved b g :
  returns (λ r, r.2 = true → ∃ u t c, r.1 = mkGlobals (Some u) (Some t) (Some c))
          (Start b g).
Proof.
  unfold Start, checkServerConnection, getBotTeam, getBotUser, getBotChannel.
  unfold deref, index, logError, logInfo, call.
  repeat (cbn -[SplitN2];
          match goal with
          | |- True => exact I
          | |- false = true → _ => discriminate
          | |- true = true → _ => intros _; eexists _, _, _; reflexivity
          | |- ∀ _, _ => intro
          | |- context [match ?x with _ => _ end] => destruct x
          end).
Qed.

(** X3.  When [Start] launches the listener, the team, the bot user and the
    channel are all resolved: none of the three package variables the
    handler reads is nil. *)
Lemma Start_listening_resolved b g g' (s : St) :
  outcome h (Start b g) s = Returned (g', true) →
  ∃ u t c, g' = mkGlobals (Some u) (Some t) (Some c).
Proof.
  intros H. apply (returns_outcome h _ _ _ _ (Start_returns_resolved b g) H).
  reflexivity.
Qed.
End BootstrapClaims.

(** ** The functions on concrete inputs *)

Section Runs.
Import Fixture.

Example bootstrap_run :
  run MemServer.serve (Start config noGlobals) server
  = (Returned (session, true),
     MemServer.withMember server "c-alerts" "u-bot",
     [GetOldClientConfig EmptyString;
      GetTeamByName "ops" EmptyString;
      AutocompleteUsersInTeam "t1" "botkube" EmptyString;
      GetChannelByName "alerts" "t1" EmptyString;
      Log InfoLevel "Channel created successfully in Mattermost" None;
      AddChannelMember "c-alerts" "u-bot";
      NewWebSocketClient4 "ws://chat.local:8065" "token";
      Listen]).
Proof. vm_compute. reflexivity. Qed.

Example get_pods_run :
  trace MemServer.serve (handle (posted "p-get" "c-alerts")) server
  = [Execute (mkExecutor "get pods" true "dev" "alerts" true);
     CreatePost (Post.mk EmptyString EmptyString "c-alerts" "p1" "`pod-1 Running`" [])].
Proof. vm_compute. reflexivity. Qed.

Example mention_is_case_sensitive : HasPrefix "@Botkube get pods" mention = false.
Proof. reflexivity. Qed.

Example mention_needs_the_space : HasPrefix "@botkube" mention = false.
Proof. reflexivity. Qed.

Example mention_must_lead : HasPrefix " @botkube get pods" mention = false.
Proof. reflexivity. Qed.

Example trim_removes_one_prefix :
  TrimPrefix "@botkube @botkube get pods" mention = "@botkube get pods".
Proof. reflexivity. Qed.

(** On the in-memory server, where a channel exists when the team's channel
    map has it: an existing channel is never created again, an absent one is
    created once. *)
Lemma getBotChannel_on_server name teamID userID (s : MemServer.t) :
  MemServer.reachable s = true →
  createdChannels (trace MemServer.serve (getBotChannel name teamID userID) s)
  = match MemServer.channels s !! (teamID, name) with
    | Some _ => []
    | None => [mmChannel name teamID]
    end.
Proof.
  intros Hup. unfold trace, getBotChannel. cbn. rewrite Hup.
  destruct (MemServer.channels s !! (teamID, name)) as [ch|] eqn:Hch; cbn.
  - rewrite Hup. destruct (bool_decide _); reflexivity.
  - rewrite Hup, Hch. cbn. rewrite Hup. destruct (bool_decide _); reflexivity.
Qed.
End Runs.

(** ** Where the code leaves the specification *)

Section Divergences.
Import Fixture.

(** C1, on the code.  An Executor result too large for a message, sent to
    a server that refuses the upload and hands back no file information:
    [sendMessage] logs the upload error and then dereferences the nil
    response.  It panics instead of returning, creates no post, and the
    listener that called it handles no later event: the second command
    below, answered when it comes alone, gets no reply. *)
Theorem sendMessage_failed_upload_panics :
  let big := "`" ++ dump 4000 ++ "`" in
  run MemServer.serve (sendMessage big "p2" "c-other") serverNoUploads
  = (Panicked NilDereference, serverNoUploads,
     [UploadFileAsRequestBody (list_byte_of_string big) "c-other" "logs";
      Log ErrorLevel "Error occured while uploading file. Error: "
          (Some MemServer.tooLarge)])
  ∧ outcome MemServer.serve
      (listener decode session config
         [posted "p-logs" "c-other"; posted "p-get" "c-alerts"]) serverNoUploads
    = Panicked NilDereference
  ∧ posts (trace MemServer.serve
             (listener decode session config
                [posted "p-logs" "c-other"; posted "p-get" "c-alerts"]) serverNoUploads)
    = []
  ∧ posts (trace MemServer.serve
             (listener decode session config [posted "p-get" "c-alerts"]) serverNoUploads)
    = [Post.mk EmptyString EmptyString "c-alerts" "p1" "`pod-1 Running`" []].
Proof. vm_compute. repeat split; reflexivity. Qed.

(** C2, on the code.  A team without the bot account: the member search
    succeeds with an empty list, [getBotUser] indexes it, and [Start]
    panics.  No error is returned or logged. *)
Theorem Start_without_bot_user_panics :
  run MemServer.serve (getBotUser "t1") serverNoBot
  = (Panicked IndexOutOfRange, serverNoBot,
     [AutocompleteUsersInTeam "t1" "botkube" EmptyString])
  ∧ run MemServer.serve (Start config noGlobals) serverNoBot
    = (Panicked IndexOutOfRange, serverNoBot,
       [GetOldClientConfig EmptyString;
        GetTeamByName "ops" EmptyString;
        AutocompleteUsersInTeam "t1" "botkube" EmptyString]).
Proof. vm_compute. split; reflexivity. Qed.

(** The member search failing is the case [Start] does handle: the error
    is logged and bootstrap stops before the channel is looked up. *)
Example Start_user_lookup_error :
  let flaky (c : Call) (s : MemServer.t) : Resp c * MemServer.t :=
    match c as c0 return Resp c0 * MemServer.t with
    | AutocompleteUsersInTeam _ _ _ => ((None, failed MemServer.unreachable), s)
    | c0 => MemServer.serve c0 s
    end in
  run flaky (Start config noGlobals) server
  = (Returned (mkGlobals None (Some team) None, false), server,
     [GetOldClientConfig EmptyString;
      GetTeamByName "ops" EmptyString;
      AutocompleteUsersInTeam "t1" "botkube" EmptyString;
      Log ErrorLevel "There was a problem creating user in Mattermost. Error: "
          (Some MemServer.unreachable)]).
Proof. vm_compute. reflexivity. Qed.

(** C3 as stated fails on a [posted] event without the [post] entry: the
    handler does not return, nothing is logged, and the command that
    follows is not handled. *)
Lemma malformed_payload_not_survived :
  ¬ (Event noPayload = WEBSOCKET_EVENT_POSTED →
     postOf decode noPayload = None →
     outcome MemServer.serve (handle noPayload) server = Returned tt
     ∧ logged (trace MemServer.serve (handle noPayload) server) ≠ []
     ∧ trace MemServer.serve
         (listener decode session config [noPayload; posted "p-get" "c-alerts"]) server
       = (trace MemServer.serve (handle noPayload) server
          ++ trace MemServer.serve
               (listener decode session config [posted "p-get" "c-alerts"]) server)%list).
Proof.
  intros H. destruct H as [H _]; [reflexivity|reflexivity|].
  vm_compute in H. discriminate H.
Qed.
End Divergences.

(** ** The theorems at work on the fixture *)

Section Witnesses.
Import Fixture.

Lemma handleMessage_gate_witness :
  Event typing ≠ WEBSOCKET_EVENT_POSTED
  ∧ executions (trace MemServer.serve (handle typing) server) = []
  ∧ sends (trace MemServer.serve (handle typing) server) = [].
Proof.
  split; [discriminate|].
  apply (handleMessage_gate MemServer.serve decode session typing true "dev" "alerts" server).
  discriminate.
Defined.

Lemma command_is_trimmed_message_witness :
  ∃ e rest,
    trace MemServer.serve (handle (posted "p-get" "c-alerts")) server = Execute e :: rest
    ∧ executions (Execute e :: rest) = [e]
    ∧ Post.Message getPost = "@botkube " ++ ExecMessage e
    ∧ (Post.Message getPost = "@botkube get pods" → ExecMessage e = "get pods").
Proof.
  apply (command_is_trimmed_message MemServer.serve decode session
           (posted "p-get" "c-alerts") getPost (mkBroadcast "c-alerts") alerts
           true "dev" "alerts" server).
  accept.
Defined.

Lemma authorization_flag_witness :
  ∃ e,
    executions (trace MemServer.serve (handle (posted "p-logs" "c-other")) server) = [e]
    ∧ (IsAuthChannel e = true ↔ "c-other" = "c-alerts")
    ∧ (IsAuthChannel e = false ↔ "c-other" ≠ "c-alerts")
    ∧ trace MemServer.serve (handle (posted "p-logs" "c-other")) server
      = Execute e :: trace MemServer.serve
                       (respond logsPost (mkBroadcast "c-other")
                                (MemServer.serve (Execute e) server).1)
                       (MemServer.serve (Execute e) server).2.
Proof.
  apply (authorization_flag MemServer.serve decode session
           (posted "p-logs" "c-other") logsPost (mkBroadcast "c-other") alerts
           true "dev" "alerts" server).
  accept.
Defined.

Lemma empty_result_dropped_witness :
  trace MemServer.serve (handle (posted "p-what" "c-alerts")) server
  = [Execute (mkExecutor "dance" true "dev" "alerts" true);
     Log InfoLevel "Invalid request. Dumping the response" None]
  ∧ sends (trace MemServer.serve (handle (posted "p-what" "c-alerts")) server) = []
  ∧ uploads (trace MemServer.serve (handle (posted "p-what" "c-alerts")) server) = []
  ∧ posts (trace MemServer.serve (handle (posted "p-what" "c-alerts")) server) = []
  ∧ outcome MemServer.serve (handle (posted "p-what" "c-alerts")) server = Returned tt.
Proof.
  apply (empty_result_dropped MemServer.serve decode session
           (posted "p-what" "c-alerts") whatPost (mkBroadcast "c-alerts") alerts
           true "dev" "alerts" server).
  - accept.
  - reflexivity.
Defined.

Lemma reply_inline_or_file_witness :
  (uploads (trace MemServer.serve (handle (posted "p-get" "c-alerts")) server) = []
   ∧ posts (trace MemServer.serve (handle (posted "p-get" "c-alerts")) server)
     = [Post.mk EmptyString EmptyString "c-alerts" "p1" "`pod-1 Running`" []])
  ∧ (uploads (trace MemServer.serve (handle (posted "p-logs" "c-other")) server)
     = [(list_byte_of_string ("`" ++ dump 4000 ++ "`"), "c-other", "logs")]
     ∧ posts (trace MemServer.serve (handle (posted "p-logs" "c-other")) server)
       = [Post.mk EmptyString EmptyString "c-other" "p2" EmptyString ["file-1"]]).
Proof.
  split.
  - apply (reply_inline_or_file MemServer.serve decode session
             (posted "p-get" "c-alerts") getPost (mkBroadcast "c-alerts") alerts
             true "dev" "alerts" server).
    + accept.
    + discriminate.
    + apply Nat.ltb_lt. vm_compute. reflexivity.
  - destruct (reply_inline_or_file MemServer.serve decode session
                (posted "p-logs" "c-other") logsPost (mkBroadcast "c-other") alerts
                true "dev" "alerts" server) as [_ Hfile].
    + accept.
    + vm_compute. discriminate.
    + destruct Hfile as [Hup Hpost].
      * apply Nat.leb_le. vm_compute. reflexivity.
      * split; [exact Hup|].
        apply (Hpost (mkFileUploadResponse [FileInfo.mk "file-1"])
                     (FileInfo.mk "file-1") []); reflexivity.
Defined.

Lemma malformed_payload_panics_witness :
  run MemServer.serve (handle numberPayload) server
  = (Panicked TypeAssertion, server, [])
  ∧ run MemServer.serve
      (listener decode session config [numberPayload; posted "p-get" "c-alerts"]) server
    = (Panicked TypeAssertion, server, []).
Proof.
  apply (malformed_payload_panics MemServer.serve decode session config numberPayload
           [posted "p-get" "c-alerts"] true "dev" "alerts" server); reflexivity.
Defined.

Lemma channel_resolution_witness :
  (createdChannels (trace MemServer.serve (getBotChannel "alerts" "t1" "u-bot") server) = []
   ∧ addedMembers (trace MemServer.serve (getBotChannel "alerts" "t1" "u-bot") server)
     = [("c-alerts", "u-bot")]
   ∧ outcome MemServer.serve (getBotChannel "alerts" "t1" "u-bot") server
     = Returned (Some alerts, None))
  ∧ createdChannels
      (trace MemServer.serve (getBotChannel "alerts" "t1" "u-bot") serverNoChannel)
    = [mmChannel "alerts" "t1"].
Proof.
  split.
  - destruct (channel_resolution MemServer.serve "alerts" "t1" "u-bot" server)
      as [Hfound _].
    apply (Hfound alerts). reflexivity.
  - destruct (channel_resolution MemServer.serve "alerts" "t1" "u-bot" serverNoChannel)
      as [_ Habsent].
    apply (Habsent None MemServer.notFound). reflexivity.
Defined.

Lemma lookup_failure_creates_witness :
  ∃ rest,
    trace MemServer.serve (getBotChannel "alerts" "t1" "u-bot") serverDown
    = GetChannelByName "alerts" "t1" EmptyString
      :: CreateChannel (mmChannel "alerts" "t1") :: rest.
Proof.
  apply (lookup_failure_creates MemServer.serve "alerts" "t1" "u-bot" serverDown
           None MemServer.unreachable).
  reflexivity.
Defined.
End Witnesses.

(** ** Bootstrap as a whole *)

Section StartFacts.
Context {St : Type} (h : ∀ c : Call, St → Resp c * St).

(** X1.  Whatever the server answers, the client calls of [Start] come in
    the order of the bootstrap steps: liveness check, team, bot user, channel
    lookup, channel creation, membership, web socket, listen.  Each step is
    taken at most once and none is taken after a later one.  [Start] never
    calls the Executor and never uploads or posts anything. *)
Theorem Start_calls_in_order b g (s : St) :
  StronglySorted lt (omap stage (trace h (Start b g) s))
  ∧ Forall (λ c, is_Some (stage c) ∨ isLog c = true) (trace h (Start b g) s)
  ∧ executions (trace h (Start b g) s) = []
  ∧ sends (trace h (Start b g) s) = [].
Proof.
  apply (always_trace h
           (λ t _, StronglySorted lt (omap stage t)
                   ∧ Forall (λ c, is_Some (stage c) ∨ isLog c = true) t
                   ∧ executions t = [] ∧ sends t = [])).
  unfold Start, checkServerConnection, getBotTeam, getBotUser, getBotChannel.
  always_cases; cbn.
  all: split; [repeat (constructor; try lia)|].
  all: split; [|split; reflexivity].
  all: repeat (constructor;
               [first [left; eexists; reflexivity | right; reflexivity]|]).
  all: constructor.
Qed.

(** X2.  [Start] gives up (returns without launching the listener) only
    after logging an error, exactly one, as its last call.  It launches the
    listener only with no error logged, after opening one web socket with
    the bot's token, [Listen] being its last call.  A panic is never
    logged. *)
Theorem Start_gives_up_with_one_error b g (s : St) :
  let t := trace h (Start b g) s in
  match outcome h (Start b g) s with
  | Returned (_, false) =>
      ∃ msg e, last t = Some (Log ErrorLevel msg (Some e))
               ∧ errorLogs t = [(msg, Some e)]
  | Returned (_, true) =>
      errorLogs t = [] ∧ last t = Some Listen
      ∧ ∃ url, webSockets t = [(url, Token b)]
  | Panicked _ => errorLogs t = []
  end.
Proof.
  apply (always_trace h
           (λ t o, match o with
                   | Returned (_, false) =>
                       ∃ msg e, last t = Some (Log ErrorLevel msg (Some e))
                                ∧ errorLogs t = [(msg, Some e)]
                   | Returned (_, true) =>
                       errorLogs t = [] ∧ last t = Some Listen
                       ∧ ∃ url, webSockets t = [(url, Token b)]
                   | Panicked _ => errorLogs t = []
                   end)).
  unfold Start, checkServerConnection, getBotTeam, getBotUser, getBotChannel.
  always_cases; cbn;
    first [reflexivity
          | eexists _, _; split; reflexivity
          | split; [reflexivity|split; [reflexivity|eexists; reflexivity]]].
Qed.

(** X4.  Bootstrap stops at the first step that fails.  An unreachable
    server: the liveness check and one log line, with [botUser], [botTeam]
    and [botChannel] as they were ([client] has been assigned by then).  A
    team that is not found: nothing after the team lookup but the log line;
    no member search, no channel call. *)
Theorem Start_stops_at_first_failure b g (s : St) :
  let ping := GetOldClientConfig EmptyString in
  let team := GetTeamByName (TeamName b) EmptyString in
  (∀ e, Error (h ping s).1.2 = Some e →
     trace h (Start b g) s
     = [ping; Log ErrorLevel "There was a problem pinging the Mattermost server. Error: "
                  (Some e)]
     ∧ outcome h (Start b g) s = Returned (g, false))
  ∧ (∀ e, Error (h ping s).1.2 = None →
     Error (h team (h ping s).2).1.2 = Some e →
     trace h (Start b g) s
     = [ping; team;
        Log ErrorLevel "There was a problem finding Mattermost team. Error: " (Some e)]
     ∧ outcome h (Start b g) s
       = Returned (mkGlobals (botUser g) (h team (h ping s).2).1.1 (botChannel g), false)).
Proof.
  intros ping team. unfold trace, outcome, Start, checkServerConnection, getBotTeam.
  fold ping. fold team. cbn -[ping team].
  destruct (h ping s) as [[cfg resp] s1]. cbn [fst snd]. split.
  - intros e He. rewrite He. cbn. destruct (h (Log _ _ _) s1) as [[] s2].
    split; reflexivity.
  - intros e Hok He. rewrite Hok. cbn -[team].
    destruct (h team s1) as [[tm resp'] s2]. cbn [fst snd] in He |- *.
    rewrite He. cbn. destruct (h (Log _ _ _) s2) as [[] s3]. split; reflexivity.
Qed.

(** X5.  A failed member search, or a channel that can be neither found nor
    created, stops bootstrap as well: the error is logged, the bot is added
    to no channel, no web socket is opened. *)
Theorem Start_stops_without_user_or_channel b g (s : St) tm :
  let ping := GetOldClientConfig EmptyString in
  let team := GetTeamByName (TeamName b) EmptyString in
  let search := AutocompleteUsersInTeam (Team.Id tm) BotName EmptyString in
  let lookup := GetChannelByName (ChannelName b) (Team.Id tm) EmptyString in
  let create := CreateChannel (mmChannel (ChannelName b) (Team.Id tm)) in
  let s1 := (h ping s).2 in
  let s2 := (h team s1).2 in
  let s3 := (h search s2).2 in
  let s4 := (h lookup s3).2 in
  Error (h ping s).1.2 = None →
  (h team s1).1 = (Some tm, ok) →
  (∀ e, Error (h search s2).1.2 = Some e →
     trace h (Start b g) s
     = [ping; team; search;
        Log ErrorLevel "There was a problem creating user in Mattermost. Error: " (Some e)]
     ∧ outcome h (Start b g) s
       = Returned (mkGlobals None (Some tm) (botChannel g), false))
  ∧ (∀ u us e e', (h search s2).1 = (Some (mkUserAutocomplete (u :: us)), ok) →
     Error (h lookup s3).1.2 = Some e →
     Error (h create s4).1.2 = Some e' →
     trace h (Start b g) s
     = [ping; team; search; lookup; create;
        Log ErrorLevel "There was a problem creating channel. Error: " (Some e')]
     ∧ outcome h (Start b g) s
       = Returned (mkGlobals (Some u) (Some tm) (h create s4).1.1, false)).
Proof.
  intros ping team search lookup create s1 s2 s3 s4 Hping Hteam.
  subst s1 s2 s3 s4.
  unfold trace, outcome, Start, checkServerConnection, getBotTeam, getBotUser,
    getBotChannel.
  fold ping. fold team. cbn -[ping team].
  destruct (h ping s) as [[cfg resp] s1]. cbn [fst snd] in *.
  rewrite Hping. cbn -[team].
  destruct (h team s1) as [[tm' resp'] s2]. cbn [fst snd] in *.
  injection Hteam as -> ->. cbn -[search]. fold search. split.
  - intros e He. destruct (h search s2) as [[users resp3] s3]. cbn [fst snd] in *.
    rewrite He. cbn. destruct (h (Log _ _ _) s3) as [[] s4]. split; reflexivity.
  - intros u us e e' Hsearch Hlookup Hcreate.
    destruct (h search s2) as [[users resp3] s3]. cbn [fst snd] in *.
    injection Hsearch as -> ->. cbn -[lookup create]. fold lookup.
    destruct (h lookup s3) as [[found resp4] s4]. cbn [fst snd] in *.
    rewrite Hlookup. cbn -[create]. fold create.
    destruct (h create s4) as [[made resp5] s5]. cbn [fst snd] in *.
    rewrite Hcreate. cbn. destruct (h (Log _ _ _) s5) as [[] s6].
    split; reflexivity.
Qed.

Lemma SplitN2_colonFree (a : string) : colonFree a = true → SplitN2 a = [a].
Proof.
  induction a as [|c a IH]; cbn; [reflexivity|].
  destruct (Ascii.eqb c ":"); cbn; [discriminate|].
  intros Hfree. now rewrite (IH Hfree).
Qed.

Lemma SplitN2_colon (a rest : string) :
  colonFree a = true → SplitN2 (a ++ ":" ++ rest) = [a; rest].
Proof.
  induction a as [|c a IH]; [reflexivity|].
  rewrite append_cons. cbn. destruct (Ascii.eqb c ":"); cbn; [discriminate|].
  intros Hfree. now rewrite (IH Hfree).
Qed.

(** X6.  The web socket address is the server address with everything up to
    its first colon replaced by [ws]: whatever the scheme of [ServerURL],
    secure or not, the one web socket [Start] may open is [ws:] followed by
    the rest, opened with the bot's token. *)
Theorem Start_webSocketURL b g scheme rest (s : St) :
  colonFree scheme = true →
  ServerURL b = scheme ++ ":" ++ rest →
  webSockets (trace h (Start b g) s) = []
  ∨ webSockets (trace h (Start b g) s) = [("ws:" ++ rest, Token b)].
Proof.
  intros Hfree Hurl.
  apply (always_trace h
           (λ t _, webSockets t = [] ∨ webSockets t = [("ws:" ++ rest, Token b)])).
  unfold Start, checkServerConnection, getBotTeam, getBotUser, getBotChannel.
  unfold index. rewrite Hurl, (SplitN2_colon _ _ Hfree).
  change ([scheme; rest] !! 1) with (Some rest).
  always_cases; cbn; first [left; reflexivity | right; reflexivity].
Qed.

(** X7.  A server address without a colon never gets the listener started:
    no web socket is opened, and once bootstrap has gone as far as adding
    the bot to the channel, [Start] panics on the missing second piece of
    the address. *)
Theorem Start_address_without_colon b g (s : St) :
  colonFree (ServerURL b) = true →
  webSockets (trace h (Start b g) s) = []
  ∧ (∀ g', outcome h (Start b g) s ≠ Returned (g', true))
  ∧ (addedMembers (trace h (Start b g) s) ≠ [] →
     outcome h (Start b g) s = Panicked IndexOutOfRange).
Proof.
  intros Hfree.
  apply (always_trace h
           (λ t o, webSockets t = []
                   ∧ (∀ g', o ≠ Returned (g', true))
                   ∧ (addedMembers t ≠ [] → o = Panicked IndexOutOfRange))).
  unfold Start, checkServerConnection, getBotTeam, getBotUser, getBotChannel.
  unfold index. rewrite (SplitN2_colonFree _ Hfree).
  change ([ServerURL b] !! 1) with (@None string).
  always_cases; cbn;
    (split; [reflexivity|split; [discriminate|]]);
    first [reflexivity | intros Hne; now destruct Hne].
Qed.
End StartFacts.

(** ** The lookups of bootstrap *)

Section LookupFacts.
Context {St : Type} (h : ∀ c : Call, St → Resp c * St).

(** X8.  What a caller of [getBotChannel] can rely on.  A nil error comes
    with a non-nil channel, to which the bot was added by exactly one
    membership call, after the success line was logged (also when the
    channel was found and not created).  With an error, or on a panic, no
    membership call was made; with an error nothing was logged. *)
Theorem getBotChannel_postcondition channelName teamID userID (s : St) :
  let t := trace h (getBotChannel channelName teamID userID) s in
  match outcome h (getBotChannel channelName teamID userID) s with
  | Returned (Some c, None) =>
      addedMembers t = [(Channel.Id c, userID)]
      ∧ logged t = [(InfoLevel, "Channel created successfully in Mattermost", None)]
  | Returned (None, None) => False
  | Returned (_, Some _) => addedMembers t = [] ∧ logged t = []
  | Panicked _ => addedMembers t = []
  end.
Proof.
  apply (always_trace h
           (λ t o, match o with
                   | Returned (Some c, None) =>
                       addedMembers t = [(Channel.Id c, userID)]
                       ∧ logged t = [(InfoLevel,
                                      "Channel created successfully in Mattermost", None)]
                   | Returned (None, None) => False
                   | Returned (_, Some _) => addedMembers t = [] ∧ logged t = []
                   | Panicked _ => addedMembers t = []
                   end)).
  unfold getBotChannel.
  always_cases; cbn; first [reflexivity | split; reflexivity].
Qed.

(** X9.  What a caller of [getBotUser] can rely on.  It makes the one member
    search, for the fixed bot name, and returns either a user and a nil
    error or no user and an error, never both and never neither; the user is
    the first of the matches. *)
Theorem getBotUser_postcondition teamID (s : St) :
  let search := AutocompleteUsersInTeam teamID BotName EmptyString in
  trace h (getBotUser teamID) s = [search]
  ∧ match outcome h (getBotUser teamID) s with
    | Returned (Some u, None) =>
        ∃ us, (h search s).1.1 = Some (mkUserAutocomplete (u :: us))
    | Returned (None, Some e) => Error (h search s).1.2 = Some e
    | Returned _ => False
    | Panicked _ => Error (h search s).1.2 = None
    end.
Proof.
  intros search. unfold trace, outcome, getBotUser. fold search. cbn -[search].
  destruct (h search s) as [[users [[e|]]] s1]; cbn; [split; reflexivity|].
  destruct users as [[[|u us]]|]; cbn; split; try reflexivity.
  exists us. reflexivity.
Qed.
End LookupFacts.

(** ** The Responder and the listener, for every server *)

Section ReplyFacts.
Context {St : Type} (h : ∀ c : Call, St → Resp c * St).
Variable PostFromJson : string → option Post.t.

(** X10.  [sendMessage] returns normally exactly when the message is short
    enough to go inline, or the upload answered with a response holding at
    least one file info.  Whether the upload or the post creation reported
    an error plays no part. *)
Theorem sendMessage_returns_iff (msg postID channelID : string) (s : St) :
  outcome h (sendMessage msg postID channelID) s = Returned tt
  ↔ (String.length msg < 3990)%nat
    ∨ ∃ res fi more,
        (h (UploadFileAsRequestBody (list_byte_of_string msg) channelID Logs) s).1.1
          = Some res
        ∧ FileInfos res = fi :: more.
Proof.
  unfold outcome.
  destruct (Nat.le_gt_cases 3990 (String.length msg)) as [Hge|Hlt].
  - rewrite sendMessage_file by exact Hge. unfold afterUpload. cbv zeta.
    destruct (h (UploadFileAsRequestBody _ _ _) s) as [[res resp] s2]. cbn [fst snd].
    destruct (Error resp) as [err|];
      (destruct res as [[[|fi more]]|]; cbn [FileInfos];
       [ split; [intros Hr; discriminate Hr|];
         intros [Hlt|(res & fi & more & [= <-] & [=])]; lia
       | rewrite run_createPost; cbv zeta;
         split; [|destruct (Error _); reflexivity];
         intros _; right; eexists _, fi, more; split; reflexivity
       | split; [intros Hr; discriminate Hr|];
         intros [Hlt|(res & fi & more & [=] & _)]; lia ]).
  - rewrite sendMessage_inline by exact Hlt. cbv zeta.
    split; [intros _; left; exact Hlt|]. destruct (Error _); reflexivity.
Qed.

(** X11.  [sendMessage] never retries and never does anything but send:
    whatever the server answers it uploads at most once, creates at most one
    post, after the upload if there is one, and calls nothing else than the
    logger.  It returns normally exactly when it got as far as the post
    creation. *)
Theorem sendMessage_no_retry (msg postID channelID : string) (s : St) :
  let t := trace h (sendMessage msg postID channelID) s in
  (filter (λ c, isLog c = false) t = sends t)
  ∧ (∃ p, sends t = [CreatePost p]
          ∨ (∃ d, sends t = [UploadFileAsRequestBody d channelID Logs])
          ∨ (∃ d, sends t = [UploadFileAsRequestBody d channelID Logs; CreatePost p]))
  ∧ (outcome h (sendMessage msg postID channelID) s = Returned tt
     ↔ length (posts t) = 1).
Proof.
  apply (always_trace h
           (λ t o,
              (filter (λ c, isLog c = false) t = sends t)
              ∧ (∃ p, sends t = [CreatePost p]
                      ∨ (∃ d, sends t = [UploadFileAsRequestBody d channelID Logs])
                      ∨ (∃ d, sends t = [UploadFileAsRequestBody d channelID Logs;
                                         CreatePost p]))
              ∧ (o = Returned tt ↔ length (posts t) = 1))).
  unfold sendMessage.
  always_cases; cbn;
    repeat match goal with u : Resp (Log _ _ _) |- _ => destruct u end;
    (split; [reflexivity|split; [|split; intros Hx; first [reflexivity|discriminate Hx]]]);
    first [ eexists; left; reflexivity
          | eexists; right; right; eexists; reflexivity
          | exists (inlinePost msg postID channelID); right; left; eexists; reflexivity ].
Qed.

Lemma length_append (a b : string) :
  String.length (a ++ b) = (String.length a + String.length b)%nat.
Proof.
  induction a as [|c a IH]; [reflexivity|].
  rewrite append_cons. cbn. now rewrite IH.
Qed.

(** X12.  The largest Executor result that is answered inline has 3987
    bytes: with the two backquotes around it a longer one reaches the
    threshold and is uploaded. *)
Theorem inline_up_to_3987 g event post bc bch ak cn chn (s : St) :
  Accepted PostFromJson g event post bc bch →
  let r := (h (Execute (request post bc bch ak cn chn)) s).1 in
  let t := trace h (handleMessage PostFromJson g event ak cn chn) s in
  r ≠ EmptyString →
  (uploads t = [] ↔ (String.length r ≤ 3987)%nat)
  ∧ ((String.length r ≤ 3987)%nat →
     posts t = [inlinePost ("`" ++ r ++ "`") (Post.Id post) (ChannelId bc)]).
Proof.
  intros Hacc r t Hr. subst t.
  rewrite (trace_accepted h PostFromJson _ _ _ _ _ _ _ _ _ Hacc).
  cbv zeta. fold r. unfold respond. rewrite (length_nonempty r Hr).
  change (uploads (Execute ?e :: ?t)) with (uploads t).
  change (posts (Execute ?e :: ?t)) with (posts t).
  assert (String.length ("`" ++ r ++ "`") = S (S (String.length r))) as Hlen.
  { rewrite !length_append. cbn. lia. }
  destruct (Nat.le_gt_cases (String.length r) 3987) as [Hle|Hgt].
  - destruct (sendMessage_inline_trace h ("`" ++ r ++ "`") (Post.Id post) (ChannelId bc)
                (h (Execute (request post bc bch ak cn chn)) s).2) as [Hup Hpost];
      [lia|].
    split; [split; auto|auto].
  - destruct (sendMessage_file_trace h ("`" ++ r ++ "`") (Post.Id post) (ChannelId bc)
                (h (Execute (request post bc bch ak cn chn)) s).2) as [Hup _];
      [lia|].
    split; [|lia]. rewrite Hup. split; [discriminate|lia].
Qed.

(** X13.  An event that passes the filter but carries no broadcast target
    makes [handleMessage] panic on the nil pointer before the Executor is
    called: no call is made at all. *)
Theorem handleMessage_without_broadcast g event post bu ak cn chn (s : St) :
  Event event = WEBSOCKET_EVENT_POSTED →
  postOf PostFromJson event = Some post →
  botUser g = Some bu →
  Post.UserId post ≠ User.Id bu →
  HasPrefix (Post.Message post) mention = true →
  Broadcast event = None →
  run h (handleMessage PostFromJson g event ak cn chn) s
  = (Panicked NilDereference, s, []).
Proof.
  intros Hev Hpost Hbu Hauth Hpre Hbc. unfold handleMessage, postOf in *.
  rewrite Hev, String.eqb_refl. cbn [negb].
  destruct (Data event !! "post") as [[]|]; try discriminate.
  cbn -[HasPrefix TrimPrefix mention sendMessage].
  rewrite Hpost, Hbu. cbn -[HasPrefix TrimPrefix mention sendMessage].
  apply String.eqb_neq in Hauth. rewrite Hauth, Hpre, Hbc. reflexivity.
Qed.

(** Per event: at most one Executor call, and no upload or post without it. *)
Lemma handleMessage_bounded g event ak cn chn :
  always (λ t (_ : Outcome unit),
            (length (executions t) ≤ 1
             ∧ length (posts t) ≤ length (executions t)
             ∧ length (uploads t) ≤ length (executions t))%nat)
         [] (handleMessage PostFromJson g event ak cn chn).
Proof.
  unfold handleMessage, sendMessage.
  always_cases; cbn; lia.
Qed.

(** X14.  The listener handles a stream piece by piece: the events of a
    first stretch, then, from the server state they left, those of the
    next.  A panic in the first stretch ends the run there. *)
Theorem listener_app g b events later (s : St) :
  run h (listener PostFromJson g b (events ++ later)) s =
  match run h (listener PostFromJson g b events) s with
  | (Returned _, s1, t1) =>
      let '(o, s2, t2) := run h (listener PostFromJson g b later) s1 in
      (o, s2, (t1 ++ t2)%list)
  | (Panicked k, s1, t1) => (Panicked k, s1, t1)
  end.
Proof.
  revert s. induction events as [|event events IH]; intros s.
  - cbn. destruct (run h _ s) as [[o s2] t2]. reflexivity.
  - rewrite <- app_comm_cons, !listener_cons.
    destruct (run h (handleMessage _ _ _ _ _ _) s) as [[[u|k] s1] t1]; [|reflexivity].
    rewrite IH.
    destruct (run h (listener PostFromJson g b events) s1) as [[[u'|k] s2] t2];
      [|reflexivity].
    destruct (run h (listener PostFromJson g b later) s2) as [[o s3] t3].
    now rewrite app_assoc.
Qed.

(** X15.  Over any stream and any server the listener calls the Executor at
    most once per event, and creates at most one post and makes at most one
    upload per Executor call. *)
Theorem listener_bounded g b events (s : St) :
  let t := trace h (listener PostFromJson g b events) s in
  (length (executions t) ≤ length events
   ∧ length (posts t) ≤ length (executions t)
   ∧ length (uploads t) ≤ length (executions t))%nat.
Proof.
  cbv zeta. unfold trace. revert s.
  induction events as [|event events IH]; intros s; [cbn; lia|].
  rewrite listener_cons.
  pose proof (always_trace h _ _ s
                (handleMessage_bounded g event (AllowKubectl b) (ClusterName b)
                   (ChannelName b))) as Hone.
  unfold trace in Hone. cbv beta in Hone.
  destruct (run h (handleMessage _ _ _ _ _ _) s) as [[[u|k] s1] t1];
    cbn [fst snd] in Hone |- *; [|cbn [length]; lia].
  specialize (IH s1).
  destruct (run h (listener PostFromJson g b events) s1) as [[o s2] t2].
  cbn [fst snd length] in IH |- *.
  unfold executions, posts, uploads in *. rewrite !omap_app, !length_app. lia.
Qed.

(** X16.  Events of any other type than [posted] go by unnoticed: a stream
    of them leaves the listener running, the server untouched and the trace
    empty. *)
Theorem listener_ignores_other_events g b events (s : St) :
  Forall (λ event, Event event ≠ WEBSOCKET_EVENT_POSTED) events →
  run h (listener PostFromJson g b events) s = (Returned tt, s, []).
Proof.
  induction 1 as [|event events Hev _ IH]; [reflexivity|].
  rewrite listener_cons. unfold handleMessage.
  apply String.eqb_neq in Hev. rewrite Hev. cbn. rewrite IH. reflexivity.
Qed.

Lemma Start_only_bootstrap b g :
  only (λ c, isExecute c = false ∧ isSend c = false) (Start b g).
Proof.
  unfold Start, checkServerConnection, getBotTeam, getBotUser, getBotChannel.
  unfold deref, index, logError, logInfo, call.
  repeat (cbn -[SplitN2];
          match goal with
          | |- True => exact I
          | |- _ ∧ _ => split
          | |- _ = _ => reflexivity
          | |- ∀ _, _ => intro
          | |- context [match ?x with _ => _ end] => destruct x
          end).
Qed.

Lemma sends_none (t : list Call) :
  Forall (λ c, isSend c = false) t → sends t = [].
Proof.
  induction 1 as [|c t Hc _ IH]; [reflexivity|].
  unfold sends in *. rewrite filter_cons, IH. rewrite decide_False; [reflexivity|].
  rewrite Hc. discriminate.
Qed.

(** X17.  The process handles events only after a complete bootstrap.  When
    [Start] does not launch the listener, the process makes the calls of
    bootstrap and no other, whatever the events: no command is executed,
    nothing is sent.  When it does, the events are handled with the
    identities bootstrap resolved, from the server state it left. *)
Theorem runBot_after_bootstrap b events (s : St) :
  ((∀ g, outcome h (Start b noGlobals) s ≠ Returned (g, true)) →
     trace h (runBot PostFromJson b events) s = trace h (Start b noGlobals) s
     ∧ executions (trace h (runBot PostFromJson b events) s) = []
     ∧ sends (trace h (runBot PostFromJson b events) s) = [])
  ∧ (∀ g s1 t1, run h (Start b noGlobals) s = (Returned (g, true), s1, t1) →
     trace h (runBot PostFromJson b events) s
     = (t1 ++ trace h (listener PostFromJson g b events) s1)%list).
Proof.
  unfold runBot, trace, outcome. rewrite run_bind.
  pose proof (only_trace h _ _ s (Start_only_bootstrap b noGlobals)) as Honly.
  unfold trace in Honly.
  destruct (run h (Start b noGlobals) s) as [[[[g launched]|k] s1] t1];
    cbn [fst snd] in *.
  - destruct launched.
    + split; [intros Hno; destruct (Hno g eq_refl)|].
      intros g' s1' t1' [= <- <- <-].
      destruct (run h (listener PostFromJson g b events) s1) as [[o s2] t2].
      reflexivity.
    + split; [|intros ? ? ? [=]]. intros _. cbn. rewrite app_nil_r.
      split; [reflexivity|]. split.
      * apply executions_none. eapply Forall_impl; [exact Honly|]. now intros c [? ?].
      * apply sends_none. eapply Forall_impl; [exact Honly|]. now intros c [? ?].
  - split; [|intros ? ? ? [=]]. intros _.
    split; [reflexivity|]. split.
    * apply executions_none. eapply Forall_impl; [exact Honly|]. now intros c [? ?].
    * apply sends_none. eapply Forall_impl; [exact Honly|]. now intros c [? ?].
Qed.

(** X18.  Whatever the server and the Executor answer, a post created by
    [handleMessage] is a reply in the thread of the post that carried the
    command, in the channel the event was broadcast to, and it carries
    either a non-empty body and no file, or one file and an empty body. *)
Theorem reply_is_text_or_file g event post bc ak cn chn (s : St) :
  postOf PostFromJson event = Some post →
  Broadcast event = Some bc →
  Forall (λ p, Post.RootId p = Post.Id post
               ∧ Post.ChannelId p = ChannelId bc
               ∧ ((Post.Message p ≠ EmptyString ∧ Post.FileIds p = [])
                  ∨ (Post.Message p = EmptyString ∧ ∃ f, Post.FileIds p = [f])))
         (posts (trace h (handleMessage PostFromJson g event ak cn chn) s)).
Proof.
  intros Hpost Hbc.
  apply (always_trace h
           (λ t (_ : Outcome unit),
              Forall (λ p, Post.RootId p = Post.Id post
                           ∧ Post.ChannelId p = ChannelId bc
                           ∧ ((Post.Message p ≠ EmptyString ∧ Post.FileIds p = [])
                              ∨ (Post.Message p = EmptyString
                                 ∧ ∃ f, Post.FileIds p = [f])))
                     (posts t))).
  unfold handleMessage, sendMessage, postOf in *.
  destruct (Data event !! "post") as [[|payload| | | |]|];
    try discriminate Hpost.
  rewrite Hbc. cbn [assertString bind]. rewrite Hpost.
  always_cases; cbn.
  all: match goal with
       | |- Forall _ [] => constructor
       | |- Forall _ [_] =>
           constructor; [split; [reflexivity|split; [reflexivity|]]|constructor]
       end.
  all: first [ right; split; [reflexivity|eexists; reflexivity]
             | left; split; [rewrite append_cons; discriminate|reflexivity] ].
Qed.
End ReplyFacts.

(** ** The further theorems at work on the fixture *)

Section MoreWitnesses.
Import Fixture.

Lemma Start_listening_resolved_witness :
  outcome MemServer.serve (Start config noGlobals) server = Returned (session, true)
  ∧ ∃ u t c, session = mkGlobals (Some u) (Some t) (Some c).
Proof.
  split; [vm_compute; reflexivity|].
  apply (Start_listening_resolved MemServer.serve config noGlobals session server).
  vm_compute. reflexivity.
Defined.

Lemma Start_stops_at_first_failure_witness :
  (trace MemServer.serve (Start config noGlobals) serverDown
   = [GetOldClientConfig EmptyString;
      Log ErrorLevel "There was a problem pinging the Mattermost server. Error: "
          (Some MemServer.unreachable)]
   ∧ outcome MemServer.serve (Start config noGlobals) serverDown
     = Returned (noGlobals, false))
  ∧ (trace MemServer.serve (Start configWrongTeam noGlobals) server
     = [GetOldClientConfig EmptyString;
        GetTeamByName "sales" EmptyString;
        Log ErrorLevel "There was a problem finding Mattermost team. Error: "
            (Some MemServer.notFound)]
     ∧ outcome MemServer.serve (Start configWrongTeam noGlobals) server
       = Returned (noGlobals, false)).
Proof.
  split.
  - destruct (Start_stops_at_first_failure MemServer.serve config noGlobals serverDown)
      as [Hping _].
    apply (Hping MemServer.unreachable). reflexivity.
  - destruct (Start_stops_at_first_failure MemServer.serve configWrongTeam noGlobals server)
      as [_ Hteam].
    apply (Hteam MemServer.notFound); reflexivity.
Defined.

Lemma Start_stops_without_user_or_channel_witness :
  (trace flaky (Start config noGlobals) server
   = [GetOldClientConfig EmptyString;
      GetTeamByName "ops" EmptyString;
      AutocompleteUsersInTeam "t1" "botkube" EmptyString;
      Log ErrorLevel "There was a problem creating user in Mattermost. Error: "
          (Some MemServer.unreachable)]
   ∧ outcome flaky (Start config noGlobals) server
     = Returned (mkGlobals None (Some team) None, false))
  ∧ (trace readOnly (Start config noGlobals) serverNoChannel
     = [GetOldClientConfig EmptyString;
        GetTeamByName "ops" EmptyString;
        AutocompleteUsersInTeam "t1" "botkube" EmptyString;
        GetChannelByName "alerts" "t1" EmptyString;
        CreateChannel (mmChannel "alerts" "t1");
        Log ErrorLevel "There was a problem creating channel. Error: " (Some forbidden)]
     ∧ outcome readOnly (Start config noGlobals) serverNoChannel
       = Returned (mkGlobals (Some bot) (Some team) None, false)).
Proof.
  split.
  - destruct (Start_stops_without_user_or_channel flaky config noGlobals server team)
      as [Huser _]; [reflexivity|reflexivity|].
    apply (Huser MemServer.unreachable). reflexivity.
  - destruct (Start_stops_without_user_or_channel readOnly config noGlobals
                serverNoChannel team) as [_ Hchannel]; [reflexivity|reflexivity|].
    apply (Hchannel bot [] MemServer.notFound forbidden); reflexivity.
Defined.

Lemma Start_webSocketURL_witness :
  colonFree "https" = true
  ∧ (webSockets (trace MemServer.serve (Start configSecure noGlobals) server) = []
     ∨ webSockets (trace MemServer.serve (Start configSecure noGlobals) server)
       = [("ws://chat.example.com", "token")]).
Proof.
  split; [reflexivity|].
  apply (Start_webSocketURL MemServer.serve configSecure noGlobals "https"
           "//chat.example.com" server); reflexivity.
Defined.

Lemma Start_address_without_colon_witness :
  webSockets (trace MemServer.serve (Start configNoColon noGlobals) server) = []
  ∧ (∀ g', outcome MemServer.serve (Start configNoColon noGlobals) server
           ≠ Returned (g', true))
  ∧ (addedMembers (trace MemServer.serve (Start configNoColon noGlobals) server) ≠ [] →
     outcome MemServer.serve (Start configNoColon noGlobals) server
     = Panicked IndexOutOfRange).
Proof.
  apply (Start_address_without_colon MemServer.serve configNoColon noGlobals server).
  reflexivity.
Defined.

Lemma inline_up_to_3987_witness :
  (uploads (trace MemServer.serve (handle (posted "p-get" "c-alerts")) server) = []
   ↔ (String.length "pod-1 Running" ≤ 3987)%nat)
  ∧ ((String.length "pod-1 Running" ≤ 3987)%nat →
     posts (trace MemServer.serve (handle (posted "p-get" "c-alerts")) server)
     = [inlinePost "`pod-1 Running`" "p1" "c-alerts"]).
Proof.
  apply (inline_up_to_3987 MemServer.serve decode session (posted "p-get" "c-alerts")
           getPost (mkBroadcast "c-alerts") alerts true "dev" "alerts" server).
  - accept.
  - discriminate.
Defined.

Lemma handleMessage_without_broadcast_witness :
  run MemServer.serve (handle noBroadcast) server = (Panicked NilDereference, server, []).
Proof.
  apply (handleMessage_without_broadcast MemServer.serve decode session noBroadcast
           getPost bot true "dev" "alerts" server);
    first [reflexivity | discriminate].
Defined.

Lemma listener_ignores_other_events_witness :
  run MemServer.serve (listener decode session config [typing; typing]) server
  = (Returned tt, server, []).
Proof.
  apply (listener_ignores_other_events MemServer.serve decode session config
           [typing; typing] server).
  repeat constructor; discriminate.
Defined.

Lemma runBot_after_bootstrap_witness :
  trace MemServer.serve (runBot decode config [posted "p-get" "c-alerts"]) serverDown
  = trace MemServer.serve (Start config noGlobals) serverDown
  ∧ executions
      (trace MemServer.serve (runBot decode config [posted "p-get" "c-alerts"]) serverDown)
    = []
  ∧ sends
      (trace MemServer.serve (runBot decode config [posted "p-get" "c-alerts"]) serverDown)
    = [].
Proof.
  apply (runBot_after_bootstrap MemServer.serve decode config
           [posted "p-get" "c-alerts"] serverDown).
  intros g. vm_compute. discriminate.
Defined.
Lemma sendMessage_post_failure_swallowed_witness :
  outcome MemServer.serve (sendMessage "pod-1 Running" "p1" "c-alerts") serverDown
  = Returned tt
  ∧ posts (trace MemServer.serve (sendMessage "pod-1 Running" "p1" "c-alerts") serverDown)
    = [inlinePost "pod-1 Running" "p1" "c-alerts"]
  ∧ logged (trace MemServer.serve (sendMessage "pod-1 Running" "p1" "c-alerts") serverDown)
    = [(ErrorLevel, "Failed to send message. Error: ", Some MemServer.unreachable)].
Proof.
  destruct (sendMessage_post_failure_swallowed MemServer.serve "pod-1 Running" "p1"
              "c-alerts" serverDown) as (Hout & Hposts & Hlog).
  - apply Nat.ltb_lt. vm_compute. reflexivity.
  - split; [exact Hout|]. split; [exact Hposts|].
    apply (Hlog MemServer.unreachable). reflexivity.
Defined.
Lemma reply_is_text_or_file_witness :
  Forall (λ p, Post.RootId p = "p2"
               ∧ Post.ChannelId p = "c-other"
               ∧ ((Post.Message p ≠ EmptyString ∧ Post.FileIds p = [])
                  ∨ (Post.Message p = EmptyString ∧ ∃ f, Post.FileIds p = [f])))
         (posts (trace MemServer.serve (handle (posted "p-logs" "c-other")) server)).
Proof.
  apply (reply_is_text_or_file MemServer.serve decode session (posted "p-logs" "c-other")
           logsPost (mkBroadcast "c-other") true "dev" "alerts" server); reflexivity.
Defined.
End MoreWitnesses.

(** ** Channel resolution within bootstrap *)

Section StartChannel.
Context {St : Type} (h : ∀ c : Call, St → Resp c * St).

End StartChannel.

Section StartChannelRuns.
Import Fixture.


(** What that run is: the creation is refused, the channel being there, and
    bootstrap gives up. *)
Example existing_channel_run :
  run lookupDown (Start config noGlobals) server
  = (Returned (mkGlobals (Some bot) (Some team) None, false), server,
     [GetOldClientConfig EmptyString;
      GetTeamByName "ops" EmptyString;
      AutocompleteUsersInTeam "t1" "botkube" EmptyString;
      GetChannelByName "alerts" "t1" EmptyString;
      CreateChannel (mmChannel "alerts" "t1");
      Log ErrorLevel "There was a problem creating channel. Error: "
          (Some MemServer.exists_)]).
Proof. vm_compute. reflexivity. Qed.

End StartChannelRuns.
